(** * hcid/dbus-common.c : the D-Bus name-listener registry

    A shallow embedding of the name-listener code of BlueZ's hcid
    (src/hcid/dbus-common.c) together with the properties of its registry:
    the match-rule life cycle, the dispatch of NameOwnerChanged signals and
    the behaviour on failing allocations and failing bus calls.

    Conventions of the embedding.

    - The two file-scope globals ([name_listener_initialized] and
      [name_listeners]) form the record [registry]; every C function is a
      computation in the monad [Run], which threads the registry and
      collects the calls made to the outside world (libdbus, syslog, the
      registered callbacks) as a list of [event]s, in program order.
    - What the outside world answers (does malloc succeed, does the bus
      report an error) is not decided by this file: each public call takes
      an [extern] record that fixes those answers.
    - Heap records that sit in a list are live and therefore pairwise
      distinct, so a pointer to one of them is represented by the position
      of its node in the list.  [name_data_find] returns that position
      together with the record it points to.
    - C strings are [string]s (sequences of bytes without NUL); [strcmp]
      is string equality.
    - The [DBusConnection *] argument of the public functions and of the
      filter is only handed on to libdbus and is left out.
    - Invoking a callback is the event [Callback].  What the callback does
      to the registry while it runs comes in two forms.  [call_all] and
      [name_exit_filter] are the filter for callbacks that return without
      calling the two public functions; [call_all_reentrant] and
      [name_exit_filter_reentrant] are the filter for callbacks that do call
      them, with the code of a callback given as a [script].  The two agree
      on callbacks that make no call ([name_exit_filter_quiet]). *)

From Stdlib Require Import ZArith Lia.
From stdpp Require Import base list strings.

Local Open Scope Z_scope.

(** ** Data *)

(** [name_cb_t] is a function pointer and [user_data] a [void *]; both are
    only ever compared for identity, so an address is all that is kept. *)
Definition name_cb_t := Z.
Definition pointer := Z.

(** [struct name_callback] *)
Record name_callback := Name_callback {
  cb_func : name_cb_t;
  cb_user_data : pointer
}.

(** [struct name_data] *)
Record name_data := Name_data {
  nd_name : string;
  nd_callbacks : list name_callback
}.

(** The file-scope state: [static int name_listener_initialized] (only ever
    0 or 1) and [static struct slist *name_listeners]. *)
Record registry := Registry {
  name_listener_initialized : bool;
  name_listeners : list name_data
}.

Definition initial : registry :=
  {| name_listener_initialized := false; name_listeners := [] |}.

(** syslog priorities used by the file. *)
Definition LOG_ERR : Z := 3.
Definition LOG_DEBUG : Z := 7.

(** Calls that leave the translation unit. *)
Inductive event :=
| Syslog (priority : Z) (text : string)
| ConnectionAddFilter (ok : bool)
| BusAddMatch (rule : string) (err : option string)
| BusRemoveMatch (rule : string) (err : option string)
| Callback (func : name_cb_t) (name : string) (user_data : pointer).

(** Answers of the outside world during one public call.  Each of the
    external calls below is made at most once per public call. *)
Record extern := Extern {
  malloc_name_callback : bool;     (* malloc(sizeof(struct name_callback)) != NULL *)
  malloc_name_data : bool;         (* malloc(sizeof(struct name_data)) != NULL *)
  strdup_name : bool;              (* strdup(name) != NULL *)
  add_filter_ok : bool;            (* result of dbus_connection_add_filter *)
  add_match_err : option string;   (* err.message when dbus_bus_add_match set err *)
  remove_match_err : option string (* err.message when dbus_bus_remove_match set err *)
}.

(** Everything succeeds. *)
Definition all_ok : extern :=
  {| malloc_name_callback := true; malloc_name_data := true;
     strdup_name := true; add_filter_ok := true;
     add_match_err := None; remove_match_err := None |}.

(** [DBusHandlerResult] *)
Inductive DBusHandlerResult :=
| DBUS_HANDLER_RESULT_HANDLED
| DBUS_HANDLER_RESULT_NOT_YET_HANDLED
| DBUS_HANDLER_RESULT_NEED_MEMORY.

(** A received message, as far as [name_exit_filter] looks at it: the
    interface and member when it is a signal, and the outcome of
    [dbus_message_get_args] for three strings. *)
Record DBusMessage := Message {
  msg_signal : option (string * string);
  msg_args : option (string * string * string)
}.

Definition dbus_message_is_signal (m : DBusMessage) (iface member : string) : bool :=
  match msg_signal m with
  | Some (i, mb) => String.eqb i iface && String.eqb mb member
  | None => false
  end.

(** [DBUS_INTERFACE_DBUS], from dbus/dbus-shared.h. *)
Definition DBUS_INTERFACE_DBUS : string := "org.freedesktop.DBus".

(** ** The monad of the file: registry state and a log of external calls *)

Definition Run (A : Type) : Type := registry → A * registry * list event.

Definition ret {A} (a : A) : Run A := λ s, (a, s, []).

Definition bind {A B} (c : Run A) (k : A → Run B) : Run B :=
  λ s, let '(a, s1, e1) := c s in
       let '(b, s2, e2) := k a s1 in
       (b, s2, e1 ++ e2).

Notation "'do' x <- c ; k" := (bind c (λ x, k))
  (at level 10, x pattern, c at level 100, k at level 200,
   format "'[v' 'do'  x  <-  c ; '/' k ']'").
Notation "c ;; k" := (bind c (λ _, k))
  (at level 100, k at level 200, right associativity).

Definition emit (e : event) : Run unit := λ s, (tt, s, [e]).
Definition get_initialized : Run bool := λ s, (name_listener_initialized s, s, []).
Definition set_initialized (b : bool) : Run unit :=
  λ s, (tt, {| name_listener_initialized := b; name_listeners := name_listeners s |}, []).
Definition get_listeners : Run (list name_data) := λ s, (name_listeners s, s, []).
Definition set_listeners (l : list name_data) : Run unit :=
  λ s, (tt, {| name_listener_initialized := name_listener_initialized s;
               name_listeners := l |}, []).

(** [data->callbacks = cbs] for the record at position [p]. *)
Definition set_callbacks (p : nat) (cbs : list name_callback) : Run unit :=
  do l <- get_listeners;
  set_listeners (alter (λ d, {| nd_name := nd_name d; nd_callbacks := cbs |}) p l).

Definition syslog (priority : Z) (text : string) : Run unit :=
  emit (Syslog priority text).

Definition result {A} (x : A * registry * list event) : A := x.1.1.
Definition state {A} (x : A * registry * list event) : registry := x.1.2.
Definition events {A} (x : A * registry * list event) : list event := x.2.

(** ** list.h *)

(** Modelled from the spec: list.h and its implementation (struct slist,
    slist_append, slist_remove) are not under src/.  The registry is an
    insertion-ordered collection: [slist_append] adds the record after the
    last node. *)
Definition slist_append {A} (l : list A) (data : A) : list A := l ++ [data].

(** Modelled from the spec: list.h and its implementation are not under
    src/.  [slist_remove] unlinks the node that holds the given record
    pointer, here the node at that position, and keeps the order of the
    others. *)
Definition slist_remove {A} (l : list A) (data : nat) : list A := delete data l.

(** ** The static helpers *)

Fixpoint find_from (name : string) (current : list name_data) (pos : nat)
  : option (nat * name_data) :=
  match current with
  | [] => None
  | data :: next =>
      if String.eqb name (nd_name data) then Some (pos, data)
      else find_from name next (S pos)
  end.

(** [name_data_find]: the first record of [name_listeners] whose name is
    [name], as a pointer (position) and the record. *)
Definition name_data_find (name : string) : Run (option (nat * name_data)) :=
  do l <- get_listeners;
  ret (find_from name l 0).

(** [name_callback_find]: pointer to the first callback with the same
    [func] and the same [user_data]. *)
Fixpoint name_callback_find (callbacks : list name_callback)
    (func : name_cb_t) (user_data : pointer) : option nat :=
  match callbacks with
  | [] => None
  | cb :: next =>
      if Z.eqb (cb_func cb) func && Z.eqb (cb_user_data cb) user_data
      then Some 0%nat
      else S <$> name_callback_find next func user_data
  end.

(** [name_data_add]; the result is the C variable [first].  The first part
    ends in [None] where the C code jumps to [out] after a failed
    allocation, and otherwise in the value of [first] and the pointer
    [data]; the append to [data->callbacks] is shared by both branches. *)
Definition name_data_add (x : extern) (name : string) (func : name_cb_t)
    (user_data : pointer) : Run Z :=
  if negb (malloc_name_callback x) then ret 0
  else
    let cb := {| cb_func := func; cb_user_data := user_data |} in
    do found <- name_data_find name;
    do located <-
      match found with
      | Some (p, data) => ret (Some (0, p, data))
      | None =>
          if negb (malloc_name_data x) then ret None
          else if negb (strdup_name x) then ret None
          else
            let data := {| nd_name := name; nd_callbacks := [] |} in
            do l <- get_listeners;
            set_listeners (slist_append l data);;
            ret (Some (1, length l, data))
      end;
    match located with
    | None => ret 0
    | Some (first, p, data) =>
        set_callbacks p (slist_append (nd_callbacks data) cb);;
        ret first
    end.

(** [name_data_remove] *)
Definition name_data_remove (name : string) (func : name_cb_t)
    (user_data : pointer) : Run unit :=
  do found <- name_data_find name;
  match found with
  | None => ret tt
  | Some (p, data) =>
      match name_callback_find (nd_callbacks data) func user_data with
      | None => ret tt
      | Some cb =>
          let callbacks := slist_remove (nd_callbacks data) cb in
          set_callbacks p callbacks;;
          match callbacks with
          | [] =>
              do l <- get_listeners;
              set_listeners (slist_remove l p)
          | _ :: _ => ret tt
          end
      end
  end.

(** The loop of [name_exit_filter] over [data->callbacks], for callbacks
    that return without calling [name_listener_add] or
    [name_listener_remove]: the list is then the same before and after each
    callback.  [call_all_reentrant] below is the loop for callbacks that do
    call them. *)
Fixpoint call_all (name : string) (l : list name_callback) : Run unit :=
  match l with
  | [] => ret tt
  | cb :: next =>
      emit (Callback (cb_func cb) name (cb_user_data cb));;
      call_all name next
  end.

(** [name_exit_filter], for callbacks that make no call to the registry
    (see [call_all]). *)
Definition name_exit_filter (message : DBusMessage) : Run DBusHandlerResult :=
  if negb (dbus_message_is_signal message DBUS_INTERFACE_DBUS "NameOwnerChanged")
  then ret DBUS_HANDLER_RESULT_NOT_YET_HANDLED
  else
    match msg_args message with
    | None =>
        syslog LOG_ERR "Invalid arguments for NameOwnerChanged signal";;
        ret DBUS_HANDLER_RESULT_NOT_YET_HANDLED
    | Some (name, old, new) =>
        (* We are not interested of service creations *)
        match new with
        | String _ _ => ret DBUS_HANDLER_RESULT_NOT_YET_HANDLED
        | EmptyString =>
            do found <- name_data_find name;
            match found with
            | None =>
                syslog LOG_ERR ("Got NameOwnerChanged signal for " +:+ name
                                +:+ " which has no listeners");;
                ret DBUS_HANDLER_RESULT_NOT_YET_HANDLED
            | Some (p, data) =>
                call_all name (nd_callbacks data);;
                do l <- get_listeners;
                set_listeners (slist_remove l p);;
                ret DBUS_HANDLER_RESULT_NOT_YET_HANDLED
            end
        end
    end.

(** ** The public functions *)

(** [snprintf(buf, size, ...)] keeps the first [size - 1] bytes of the
    formatted text. *)
Definition snprintf (size : nat) (text : string) : string :=
  String.substring 0 (size - 1) text.

(** The text that the format
    ["interface=%s,member=NameOwnerChanged,arg0=%s"] expands to. *)
Definition match_format (name : string) : string :=
  "interface=" +:+ DBUS_INTERFACE_DBUS +:+ ",member=NameOwnerChanged,arg0=" +:+ name.

(** [char match_string[128]] after the [snprintf] of both public functions. *)
Definition match_string (name : string) : string := snprintf 128 (match_format name).

(** [name_listener_add] *)
Definition name_listener_add (x : extern) (name : string) (func : name_cb_t)
    (user_data : pointer) : Run Z :=
  syslog LOG_DEBUG ("name_listener_add(" +:+ name +:+ ")");;
  do initialized <- get_initialized;
  do attached <-
    (if negb initialized then
       emit (ConnectionAddFilter (add_filter_ok x));;
       if negb (add_filter_ok x) then
         syslog LOG_ERR "dbus_connection_add_filter() failed";;
         ret false
       else
         set_initialized true;;
         ret true
     else ret true);
  if negb attached then ret (-1)
  else
    do first <- name_data_add x name func user_data;
    (* The filter is already added if this is not the first callback
       registration for the name *)
    if Z.eqb first 0 then ret 0
    else
      emit (BusAddMatch (match_string name) (add_match_err x));;
      match add_match_err x with
      | Some message =>
          syslog LOG_ERR ("Adding owner match rule for " +:+ name
                          +:+ " failed: " +:+ message);;
          name_data_remove name func user_data;;
          ret (-1)
      | None => ret 0
      end.

(** [name_listener_remove] *)
Definition name_listener_remove (x : extern) (name : string) (func : name_cb_t)
    (user_data : pointer) : Run Z :=
  syslog LOG_DEBUG ("name_listener_remove(" +:+ name +:+ ")");;
  do found <- name_data_find name;
  match found with
  | None =>
      syslog LOG_ERR ("remove_name_listener: no listener for " +:+ name);;
      ret (-1)
  | Some (p, data) =>
      match name_callback_find (nd_callbacks data) func user_data with
      | None =>
          syslog LOG_ERR ("No matching callback found for " +:+ name);;
          ret (-1)
      | Some cb =>
          let callbacks := slist_remove (nd_callbacks data) cb in
          set_callbacks p callbacks;;
          (* Don't remove the filter if other callbacks exist *)
          match callbacks with
          | _ :: _ => ret 0
          | [] =>
              emit (BusRemoveMatch (match_string name) (remove_match_err x));;
              match remove_match_err x with
              | Some message =>
                  syslog LOG_ERR ("Removing owner match rule for " +:+ name
                                  +:+ " failed: " +:+ message);;
                  ret (-1)
              | None =>
                  name_data_remove name func user_data;;
                  ret 0
              end
          end
      end
  end.

(** ** The filter when callbacks call the registry *)

(** The code of a callback as the registry meets it: the calls it makes to
    the two public functions, each with the answers of the outside world for
    that call, and how it goes on with the code returned; in the end it
    returns, leaving its own data [U] in some state. *)
Inductive script (U : Type) : Type :=
| Return (u : U)
| Call_add (x : extern) (name : string) (func : name_cb_t) (user_data : pointer)
    (next : Z → script U)
| Call_remove (x : extern) (name : string) (func : name_cb_t) (user_data : pointer)
    (next : Z → script U).
Arguments Return {U} u.
Arguments Call_add {U} x name func user_data next.
Arguments Call_remove {U} x name func user_data next.

(** What the function behind a [name_cb_t] does when it is called with a
    name and its user data, depending on the data of the caller. *)
Definition behaviour (U : Type) : Type := name_cb_t → string → pointer → U → script U.

(** How a run of the filter can end: it returns; or it reads [l->next] from
    a node that a callback has unlinked from [data->callbacks] in the
    meantime, which the code does not define; or it is still in its loop
    when the fuel of the model is used up. *)
Inductive ending (A : Type) : Type :=
| Finished (a : A)
| Reads_unlinked_node
| Still_running.
Arguments Finished {A} a.
Arguments Reads_unlinked_node {A}.
Arguments Still_running {A}.

(** The place of the loop's node [l] in the callback list of the record at
    [p] after [name_listener_remove (name, func, user_data)], called on the
    list [listeners]: the remove unlinks the first matching node of the
    record it finds (line 256).  When that is the record at [p], a node
    before [l] moves [l] one place to the front, [l] itself is gone
    ([None]), and a node behind [l] leaves it where it is.
    [name_listener_add] never moves [l]: it appends behind the last node. *)
Definition node_after_remove (p : nat) (name : string) (func : name_cb_t)
    (user_data : pointer) (listeners : list name_data) (node : option nat)
  : option nat :=
  match find_from name listeners 0 with
  | Some (q, data) =>
      if Nat.eqb q p then
        match name_callback_find (nd_callbacks data) func user_data, node with
        | Some j, Some i =>
            if Nat.ltb j i then Some (i - 1)%nat
            else if Nat.eqb j i then None
            else Some i
        | _, _ => node
        end
      else node
  | None => node
  end.

(** One call [cb->func(name, cb->user_data)] of the loop: the calls of the
    callback are run on the registry in order; the result is the data of the
    caller and the place of the node [l]. *)
Fixpoint run_script {U} (code : script U) (p : nat) (node : option nat)
  : Run (U * option nat) :=
  match code with
  | Return u => ret (u, node)
  | Call_add x name func user_data next =>
      do answer <- name_listener_add x name func user_data;
      run_script (next answer) p node
  | Call_remove x name func user_data next =>
      do l <- get_listeners;
      do answer <- name_listener_remove x name func user_data;
      run_script (next answer) p (node_after_remove p name func user_data l node)
  end.

(** The loop of [name_exit_filter] (lines 179-182) from the node at place
    [i] of the callback list of the record at [p] on: the list is read again
    for every step, [l = l->next] is taken after the callback has returned.
    [fuel] bounds the number of steps. *)
Fixpoint call_all_reentrant {U} (b : behaviour U) (fuel : nat) (name : string)
    (p i : nat) (u : U) : Run (ending U) :=
  match fuel with
  | O => ret Still_running
  | S fuel' =>
      do l <- get_listeners;
      match l !! p ≫= (λ data, nd_callbacks data !! i) with
      | None => ret (Finished u)
      | Some cb =>
          emit (Callback (cb_func cb) name (cb_user_data cb));;
          do back <- run_script (b (cb_func cb) name (cb_user_data cb) u) p (Some i);
          match back.2 with
          | None => ret Reads_unlinked_node
          | Some i' => call_all_reentrant b fuel' name p (S i') back.1
          end
      end
  end.

(** [name_exit_filter] with callbacks that behave as [b] says. *)
Definition name_exit_filter_reentrant {U} (b : behaviour U) (fuel : nat)
    (message : DBusMessage) (u : U) : Run (ending (DBusHandlerResult * U)) :=
  if negb (dbus_message_is_signal message DBUS_INTERFACE_DBUS "NameOwnerChanged")
  then ret (Finished (DBUS_HANDLER_RESULT_NOT_YET_HANDLED, u))
  else
    match msg_args message with
    | None =>
        syslog LOG_ERR "Invalid arguments for NameOwnerChanged signal";;
        ret (Finished (DBUS_HANDLER_RESULT_NOT_YET_HANDLED, u))
    | Some (name, old, new) =>
        (* We are not interested of service creations *)
        match new with
        | String _ _ => ret (Finished (DBUS_HANDLER_RESULT_NOT_YET_HANDLED, u))
        | EmptyString =>
            do found <- name_data_find name;
            match found with
            | None =>
                syslog LOG_ERR ("Got NameOwnerChanged signal for " +:+ name
                                +:+ " which has no listeners");;
                ret (Finished (DBUS_HANDLER_RESULT_NOT_YET_HANDLED, u))
            | Some (p, data) =>
                do e <- call_all_reentrant b fuel name p 0 u;
                match e with
                | Finished u' =>
                    do l <- get_listeners;
                    set_listeners (slist_remove l p);;
                    ret (Finished (DBUS_HANDLER_RESULT_NOT_YET_HANDLED, u'))
                | Reads_unlinked_node => ret Reads_unlinked_node
                | Still_running => ret Still_running
                end
            end
        end
    end.

(** A callback makes no call to the registry. *)
Definition quiet {U} (b : behaviour U) (name : string) (cb : name_callback) : Prop :=
  ∀ u, ∃ u', b (cb_func cb) name (cb_user_data cb) u = Return u'.

(** ** Histories of calls *)

(** What the environment can do with the registry: call one of the two
    public functions, or let libdbus hand a message to the filter. *)
Inductive call :=
| Add (x : extern) (name : string) (func : name_cb_t) (user_data : pointer)
| Remove (x : extern) (name : string) (func : name_cb_t) (user_data : pointer)
| Deliver (message : DBusMessage).

(** What a call hands back to its caller. *)
Inductive outcome :=
| Returned (code : Z)
| Filtered (r : DBusHandlerResult).

Definition perform (c : call) : Run outcome :=
  match c with
  | Add x name func user_data =>
      do code <- name_listener_add x name func user_data; ret (Returned code)
  | Remove x name func user_data =>
      do code <- name_listener_remove x name func user_data; ret (Returned code)
  | Deliver message =>
      do r <- name_exit_filter message; ret (Filtered r)
  end.

Fixpoint run (cs : list call) : Run (list outcome) :=
  match cs with
  | [] => ret []
  | c :: rest =>
      do o <- perform c;
      do os <- run rest;
      ret (o :: os)
  end.

(** The service name a call is about; a message that the filter drops
    before it reads a name is about none. *)
Definition subject (c : call) : option string :=
  match c with
  | Add _ name _ _ | Remove _ name _ _ => Some name
  | Deliver message =>
      if dbus_message_is_signal message DBUS_INTERFACE_DBUS "NameOwnerChanged"
      then (λ a, a.1.1) <$> msg_args message
      else None
  end.

(** ** Observations *)

(** The callbacks held by the first record for [name] in a list. *)
Definition callbacks_in (name : string) (l : list name_data)
  : option (list name_callback) :=
  (λ pd, nd_callbacks pd.2) <$> find_from name l 0.

(** The callback list registered for [name], if the name has a record. *)
Definition callbacks_of (name : string) (s : registry) : option (list name_callback) :=
  callbacks_in name (name_listeners s).

(** Does a registration match the pair given to [name_listener_remove]? *)
Definition matches (func : name_cb_t) (user_data : pointer) (cb : name_callback) : bool :=
  Z.eqb (cb_func cb) func && Z.eqb (cb_user_data cb) user_data.

Definition is_add_match (e : event) : bool :=
  match e with BusAddMatch _ _ => true | _ => false end.
Definition is_remove_match (e : event) : bool :=
  match e with BusRemoveMatch _ _ => true | _ => false end.
Definition is_add_filter (e : event) : bool :=
  match e with ConnectionAddFilter _ => true | _ => false end.
Definition is_attach (e : event) : bool :=
  match e with ConnectionAddFilter true => true | _ => false end.

Definition is_callback (e : event) : bool :=
  match e with Callback _ _ _ => true | _ => false end.

(** How often an event of a given kind occurs in a log. *)
Definition count (kind : event → bool) (log : list event) : nat :=
  length (List.filter kind log).

(** The answers under which an add registers its callback whatever the
    registry looks like: the allocations succeed and so do the bus calls. *)
Definition succeeds (x : extern) : Prop :=
  malloc_name_callback x = true ∧ malloc_name_data x = true ∧
  strdup_name x = true ∧ add_filter_ok x = true ∧ add_match_err x = None.

(** A NameOwnerChanged signal reporting that [name] lost its owner [old]. *)
Definition name_lost (name old : string) : DBusMessage :=
  {| msg_signal := Some (DBUS_INTERFACE_DBUS, "NameOwnerChanged"%string);
     msg_args := Some (name, old, ""%string) |}.

Definition registration (func : name_cb_t) (user_data : pointer) : name_callback :=
  {| cb_func := func; cb_user_data := user_data |}.

(** The calls that register the pairs of [regs], in order, for [name];
    every pair comes with the answers of the outside world for its call. *)
Definition adds (name : string) (regs : list (extern * name_cb_t * pointer)) : list call :=
  map (λ r, Add r.1.1 name r.1.2 r.2) regs.

(** Every request for a match rule in the log comes after a successful
    [dbus_connection_add_filter]. *)
Definition rules_after_attach (log : list event) : Prop :=
  ∀ before rule err after,
    log = before ++ BusAddMatch rule err :: after →
    In (ConnectionAddFilter true) before.

(** The same as a check that runs along the log; [attached] tells whether
    the filter was attached before the log starts. *)
Fixpoint well_ordered (attached : bool) (log : list event) : bool :=
  match log with
  | [] => true
  | ConnectionAddFilter true :: rest => well_ordered true rest
  | BusAddMatch _ _ :: rest => attached && well_ordered attached rest
  | _ :: rest => well_ordered attached rest
  end.

(** ** Sample data for the examples *)

Definition svc : string := "org.example.Svc".

(** A well-formed bus name of 68 bytes. *)
Definition long_svc : string :=
  "org.example.Bluetooth.Service.With.A.Rather.Long.WellKnown.BusName.X".

(** The bus refuses to install a match rule. *)
Definition add_match_fails : extern :=
  {| malloc_name_callback := true; malloc_name_data := true;
     strdup_name := true; add_filter_ok := true;
     add_match_err := Some "org.freedesktop.DBus.Error.NoMemory"%string;
     remove_match_err := None |}.

(** The bus refuses to remove a match rule. *)
Definition remove_match_fails : extern :=
  {| malloc_name_callback := true; malloc_name_data := true;
     strdup_name := true; add_filter_ok := true;
     add_match_err := None;
     remove_match_err := Some "org.freedesktop.DBus.Error.MatchRuleNotFound"%string |}.

(** malloc returns NULL for the [struct name_callback]. *)
Definition no_callback_memory : extern :=
  {| malloc_name_callback := false; malloc_name_data := true;
     strdup_name := true; add_filter_ok := true;
     add_match_err := None; remove_match_err := None |}.

(** malloc returns NULL for the [struct name_data]. *)
Definition no_data_memory : extern :=
  {| malloc_name_callback := true; malloc_name_data := false;
     strdup_name := true; add_filter_ok := true;
     add_match_err := None; remove_match_err := None |}.

(** strdup returns NULL. *)
Definition no_name_memory : extern :=
  {| malloc_name_callback := true; malloc_name_data := true;
     strdup_name := false; add_filter_ok := true;
     add_match_err := None; remove_match_err := None |}.

(** Callbacks without data of their own.  Callback 1 takes the registration
    of callback 2 for the name off the registry; every other callback just
    returns. *)
Definition unsubscribes_other : behaviour unit :=
  λ func name user_data u,
    if Z.eqb func 1 then Call_remove all_ok name 2 20 (λ _, Return u) else Return u.

(** Callback 1 registers callback 3 for the name; every other callback just
    returns. *)
Definition subscribes_other : behaviour unit :=
  λ func name user_data u,
    if Z.eqb func 1 then Call_add all_ok name 3 30 (λ _, Return u) else Return u.

(** Every callback registers itself again for the name it is called for. *)
Definition subscribes_again : behaviour unit :=
  λ func name user_data u, Call_add all_ok name func user_data (λ _, Return u).

(** Every callback takes its own registration off the registry. *)
Definition unsubscribes_itself : behaviour unit :=
  λ func name user_data u, Call_remove all_ok name func user_data (λ _, Return u).

(** No callback calls the registry. *)
Definition returns_at_once : behaviour unit := λ func name user_data u, Return u.

(** ** Shorthands for the states and events the functions produce *)

(** [data->callbacks = cbs] *)
Definition with_callbacks (cbs : list name_callback) (d : name_data) : name_data :=
  {| nd_name := nd_name d; nd_callbacks := cbs |}.

(** The registry with [name_listeners] replaced. *)
Definition with_listeners (s : registry) (l : list name_data) : registry :=
  {| name_listener_initialized := name_listener_initialized s; name_listeners := l |}.

(** The registry once the filter is attached. *)
Definition attached (s : registry) : registry :=
  {| name_listener_initialized := true; name_listeners := name_listeners s |}.

(** The debug lines the two public functions start with. *)
Definition debug_add (name : string) : event :=
  Syslog LOG_DEBUG ("name_listener_add(" +:+ name +:+ ")").
Definition debug_remove (name : string) : event :=
  Syslog LOG_DEBUG ("name_listener_remove(" +:+ name +:+ ")").

(** The events with which [name_listener_add] starts when it gets past the
    attachment of the filter. *)
Definition prologue (s : registry) (name : string) : list event :=
  debug_add name ::
  (if name_listener_initialized s then [] else [ConnectionAddFilter true]).

(** * Properties *)

(** Closes a goal whose hypothesis [H] puts an event in a log that does not
    hold it. *)
Ltac absurd_event H :=
  repeat (destruct H as [H|H]; [discriminate H|]); destruct H.

(** ** Looking names up *)

Lemma find_from_shift name l k :
  find_from name l k = prod_map (Nat.add k) id <$> find_from name l 0.
Proof.
  revert k. induction l as [|d l IH]; intros k; simpl; [done|].
  destruct (String.eqb name (nd_name d)).
  - simpl. by rewrite Nat.add_0_r.
  - rewrite (IH (S k)), (IH 1%nat). destruct (find_from name l 0) as [[p e]|]; simpl; [|done].
    do 2 f_equal. lia.
Qed.

Lemma callbacks_in_cons name d l :
  callbacks_in name (d :: l) =
  if String.eqb name (nd_name d) then Some (nd_callbacks d) else callbacks_in name l.
Proof.
  unfold callbacks_in. simpl. destruct (String.eqb name (nd_name d)); [done|].
  rewrite find_from_shift. by destruct (find_from name l 0) as [[p e]|].
Qed.

Lemma callbacks_in_app name l1 l2 :
  callbacks_in name (l1 ++ l2) =
  match callbacks_in name l1 with
  | Some cbs => Some cbs
  | None => callbacks_in name l2
  end.
Proof.
  induction l1 as [|d l1 IH]; [done|].
  rewrite <- app_comm_cons, !callbacks_in_cons.
  by destruct (String.eqb name (nd_name d)).
Qed.

(** A successful [name_data_find] splits the list at the record found. *)
Lemma find_from_Some name l p d :
  find_from name l 0 = Some (p, d) →
  ∃ l1 l2, l = l1 ++ d :: l2 ∧ length l1 = p ∧ nd_name d = name ∧
           callbacks_in name l1 = None.
Proof.
  revert p. induction l as [|e l IH]; intros p; simpl; [done|].
  destruct (String.eqb name (nd_name e)) eqn:E.
  - intros [= <- <-]. exists [], l. apply String.eqb_eq in E. done.
  - rewrite find_from_shift. destruct (find_from name l 0) as [[q d']|] eqn:F; [|done].
    simpl. intros [= <- <-]. destruct (IH q eq_refl) as (l1 & l2 & -> & <- & Hn & Hc).
    exists (e :: l1), l2. rewrite callbacks_in_cons, E. done.
Qed.

Lemma find_from_None name l :
  find_from name l 0 = None ↔ callbacks_in name l = None.
Proof. unfold callbacks_in. by destruct (find_from name l 0). Qed.

Lemma find_from_split name l1 d l2 :
  callbacks_in name l1 = None → nd_name d = name →
  find_from name (l1 ++ d :: l2) 0 = Some (length l1, d).
Proof.
  intros Hc Hd. induction l1 as [|e l1 IH]; simpl.
  - by rewrite <- Hd, String.eqb_refl.
  - rewrite callbacks_in_cons in Hc. destruct (String.eqb name (nd_name e)); [done|].
    rewrite find_from_shift, (IH Hc). done.
Qed.

(** What [name_data_find] returned stays the place of the record when the
    list is rewritten there. *)
Lemma found_split name l p d :
  find_from name l 0 = Some (p, d) →
  ∃ l1 l2, l = l1 ++ d :: l2 ∧ p = length l1 ∧ nd_name d = name ∧
           callbacks_in name l1 = None ∧
           (∀ g, alter g p l = l1 ++ g d :: l2) ∧ delete p l = l1 ++ l2.
Proof.
  intros H. destruct (find_from_Some _ _ _ _ H) as (l1 & l2 & -> & <- & Hn & Hc).
  exists l1, l2. split_and!; try done.
  - intros g. rewrite <- (Nat.add_0_r (length l1)). by rewrite alter_app_r.
  - apply delete_middle.
Qed.

Lemma find_from_alter name l p d cbs :
  find_from name l 0 = Some (p, d) →
  find_from name (alter (with_callbacks cbs) p l) 0 = Some (p, with_callbacks cbs d).
Proof.
  intros H. destruct (found_split _ _ _ _ H) as (l1 & l2 & -> & -> & Hn & Hc & Ha & _).
  rewrite Ha. by apply find_from_split.
Qed.

Lemma name_callback_find_self f u l :
  name_callback_find (registration f u :: l) f u = Some 0%nat.
Proof. simpl. by rewrite !Z.eqb_refl. Qed.

(** ** The public functions, path by path *)

Lemma name_data_add_run x name f u s :
  name_data_add x name f u s =
  let l := name_listeners s in
  if negb (malloc_name_callback x) then (0, s, [])
  else match find_from name l 0 with
       | Some (p, d) =>
           (0, with_listeners s
                 (alter (with_callbacks (nd_callbacks d ++ [registration f u])) p l), [])
       | None =>
           if negb (malloc_name_data x) || negb (strdup_name x) then (0, s, [])
           else (1, with_listeners s (l ++ [Name_data name [registration f u]]), [])
       end.
Proof.
  destruct s as [ini l]. unfold name_data_add, name_data_find, set_callbacks.
  destruct (malloc_name_callback x); simpl; [|done].
  unfold bind, ret, get_listeners, set_listeners; simpl.
  destruct (find_from name l 0) as [[p d]|]; simpl; [done|].
  destruct (malloc_name_data x), (strdup_name x); simpl; try done.
  unfold slist_append, with_listeners; simpl. do 3 f_equal.
  rewrite <- (Nat.add_0_r (length l)). by rewrite alter_app_r.
Qed.

Lemma name_data_remove_run name f u s :
  name_data_remove name f u s =
  let l := name_listeners s in
  match find_from name l 0 with
  | None => (tt, s, [])
  | Some (p, d) =>
      match name_callback_find (nd_callbacks d) f u with
      | None => (tt, s, [])
      | Some c =>
          match delete c (nd_callbacks d) with
          | [] => (tt, with_listeners s (delete p l), [])
          | cbs => (tt, with_listeners s (alter (with_callbacks cbs) p l), [])
          end
      end
  end.
Proof.
  destruct s as [ini l].
  unfold name_data_remove, name_data_find, set_callbacks, slist_remove,
    bind, ret, get_listeners, set_listeners; simpl.
  destruct (find_from name l 0) as [[p d]|] eqn:F; simpl; [|done].
  destruct (name_callback_find (nd_callbacks d) f u) as [c|]; simpl; [|done].
  destruct (delete c (nd_callbacks d)) as [|cb cbs]; simpl; [|done].
  unfold with_listeners; simpl. do 3 f_equal.
  destruct (found_split _ _ _ _ F) as (l1 & l2 & -> & -> & _ & _ & Ha & Hd).
  rewrite Ha, Hd. apply delete_middle.
Qed.

Lemma name_listener_add_run x name f u s :
  name_listener_add x name f u s =
  let l := name_listeners s in
  if negb (name_listener_initialized s) && negb (add_filter_ok x) then
    (-1, s, [debug_add name; ConnectionAddFilter false;
             Syslog LOG_ERR "dbus_connection_add_filter() failed"])
  else if negb (malloc_name_callback x) then (0, attached s, prologue s name)
  else match find_from name l 0 with
       | Some (p, d) =>
           (0, Registry true
                 (alter (with_callbacks (nd_callbacks d ++ [registration f u])) p l),
            prologue s name)
       | None =>
           if negb (malloc_name_data x) || negb (strdup_name x)
           then (0, attached s, prologue s name)
           else match add_match_err x with
                | None =>
                    (0, Registry true (l ++ [Name_data name [registration f u]]),
                     prologue s name ++ [BusAddMatch (match_string name) None])
                | Some message =>
                    (-1, attached s,
                     prologue s name ++
                     [BusAddMatch (match_string name) (Some message);
                      Syslog LOG_ERR ("Adding owner match rule for " +:+ name
                                      +:+ " failed: " +:+ message)])
                end
       end.
Proof.
  destruct s as [ini l].
  unfold name_listener_add, bind, ret, emit, syslog, get_initialized, set_initialized.
  assert (callbacks_in name l = None →
          find_from name (l ++ [Name_data name [registration f u]]) 0 =
          Some (length l, Name_data name [registration f u])) as New
    by (intros Hc; by apply find_from_split).
  destruct ini; simpl.
  - rewrite name_data_add_run; simpl.
    destruct (malloc_name_callback x); simpl; [|done].
    destruct (find_from name l 0) as [[p d]|] eqn:F; simpl; [done|].
    destruct (malloc_name_data x), (strdup_name x); simpl; try done.
    destruct (add_match_err x) as [message|]; simpl; [|done].
    rewrite name_data_remove_run; simpl.
    rewrite New by by apply find_from_None. simpl. rewrite !Z.eqb_refl. simpl.
    unfold with_listeners, attached. simpl. by rewrite delete_middle, app_nil_r.
  - destruct (add_filter_ok x); simpl; [|done].
    rewrite name_data_add_run; simpl.
    destruct (malloc_name_callback x); simpl; [|done].
    destruct (find_from name l 0) as [[p d]|] eqn:F; simpl; [done|].
    destruct (malloc_name_data x), (strdup_name x); simpl; try done.
    destruct (add_match_err x) as [message|]; simpl; [|done].
    rewrite name_data_remove_run; simpl.
    rewrite New by by apply find_from_None. simpl. rewrite !Z.eqb_refl. simpl.
    unfold with_listeners, attached. simpl. by rewrite delete_middle, app_nil_r.
Qed.

Lemma name_listener_remove_run x name f u s :
  name_listener_remove x name f u s =
  let l := name_listeners s in
  match find_from name l 0 with
  | None =>
      (-1, s, [debug_remove name;
               Syslog LOG_ERR ("remove_name_listener: no listener for " +:+ name)])
  | Some (p, d) =>
      match name_callback_find (nd_callbacks d) f u with
      | None =>
          (-1, s, [debug_remove name;
                   Syslog LOG_ERR ("No matching callback found for " +:+ name)])
      | Some c =>
          match delete c (nd_callbacks d) with
          | (_ :: _) as cbs =>
              (0, with_listeners s (alter (with_callbacks cbs) p l), [debug_remove name])
          | [] =>
              let s' := with_listeners s (alter (with_callbacks []) p l) in
              match remove_match_err x with
              | None =>
                  (0, s', [debug_remove name; BusRemoveMatch (match_string name) None])
              | Some message =>
                  (-1, s',
                   [debug_remove name;
                    BusRemoveMatch (match_string name) (Some message);
                    Syslog LOG_ERR ("Removing owner match rule for " +:+ name
                                    +:+ " failed: " +:+ message)])
              end
          end
      end
  end.
Proof.
  destruct s as [ini l].
  unfold name_listener_remove, name_data_find, set_callbacks, slist_remove,
    bind, ret, emit, syslog, get_listeners, set_listeners.
  simpl.
  destruct (find_from name l 0) as [[p d]|] eqn:F; simpl; [|done].
  destruct (name_callback_find (nd_callbacks d) f u) as [c|]; simpl; [|done].
  destruct (delete c (nd_callbacks d)) as [|cb cbs]; simpl; [|done].
  destruct (remove_match_err x) as [message|]; simpl; [done|].
  rewrite name_data_remove_run; simpl.
  change (λ d0, {| nd_name := nd_name d0; nd_callbacks := [] |}) with (with_callbacks []).
  by rewrite (find_from_alter _ _ _ _ [] F).
Qed.

Lemma call_all_run name cbs s :
  call_all name cbs s =
  (tt, s, map (λ cb, Callback (cb_func cb) name (cb_user_data cb)) cbs).
Proof.
  induction cbs as [|cb cbs IH]; simpl; [done|].
  unfold bind, emit. by rewrite IH.
Qed.

Lemma name_exit_filter_run message s :
  name_exit_filter message s =
  let l := name_listeners s in
  let quiet := (DBUS_HANDLER_RESULT_NOT_YET_HANDLED, s, []) in
  if negb (dbus_message_is_signal message DBUS_INTERFACE_DBUS "NameOwnerChanged")
  then quiet
  else match msg_args message with
       | None =>
           (DBUS_HANDLER_RESULT_NOT_YET_HANDLED, s,
            [Syslog LOG_ERR "Invalid arguments for NameOwnerChanged signal"])
       | Some (name, old, String _ _) => quiet
       | Some (name, old, EmptyString) =>
           match find_from name l 0 with
           | None =>
               (DBUS_HANDLER_RESULT_NOT_YET_HANDLED, s,
                [Syslog LOG_ERR ("Got NameOwnerChanged signal for " +:+ name
                                 +:+ " which has no listeners")])
           | Some (p, d) =>
               (DBUS_HANDLER_RESULT_NOT_YET_HANDLED, with_listeners s (delete p l),
                map (λ cb, Callback (cb_func cb) name (cb_user_data cb)) (nd_callbacks d))
           end
       end.
Proof.
  destruct s as [ini l]. unfold name_exit_filter.
  destruct (dbus_message_is_signal _ _ _); simpl; [|done].
  destruct (msg_args message) as [[[name old] new]|]; [|done].
  destruct new; [|done].
  unfold name_data_find, bind, ret, get_listeners, set_listeners, syslog, emit. simpl.
  destruct (find_from name l 0) as [[p d]|]; simpl; [|done].
  rewrite call_all_run. simpl. by rewrite !app_nil_r.
Qed.

Lemma perform_state c s :
  state (perform c s) =
  match c with
  | Add x name f u => state (name_listener_add x name f u s)
  | Remove x name f u => state (name_listener_remove x name f u s)
  | Deliver message => state (name_exit_filter message s)
  end.
Proof.
  destruct c as [x n f u|x n f u|m]; unfold perform, bind, ret, state.
  - by destruct (name_listener_add x n f u s) as [[? ?] ?].
  - by destruct (name_listener_remove x n f u s) as [[? ?] ?].
  - by destruct (name_exit_filter m s) as [[? ?] ?].
Qed.

Lemma perform_events c s :
  events (perform c s) =
  match c with
  | Add x name f u => events (name_listener_add x name f u s)
  | Remove x name f u => events (name_listener_remove x name f u s)
  | Deliver message => events (name_exit_filter message s)
  end.
Proof.
  destruct c as [x n f u|x n f u|m]; unfold perform, bind, ret, events.
  - destruct (name_listener_add x n f u s) as [[? ?] ?]. apply app_nil_r.
  - destruct (name_listener_remove x n f u s) as [[? ?] ?]. apply app_nil_r.
  - destruct (name_exit_filter m s) as [[? ?] ?]. apply app_nil_r.
Qed.

(** ** Rewriting one record leaves the other names alone *)

Section OneRecord.
Variables (name : string) (l : list name_data) (p : nat) (d : name_data).
Hypothesis found : find_from name l 0 = Some (p, d).

Lemma callbacks_in_found : callbacks_in name l = Some (nd_callbacks d).
Proof. unfold callbacks_in. by rewrite found. Qed.

Lemma callbacks_in_alter_same cbs :
  callbacks_in name (alter (with_callbacks cbs) p l) = Some cbs.
Proof. unfold callbacks_in. by rewrite (find_from_alter _ _ _ _ cbs found). Qed.

Lemma callbacks_in_alter_other other cbs :
  other ≠ name →
  callbacks_in other (alter (with_callbacks cbs) p l) = callbacks_in other l.
Proof.
  intros Hne. destruct (found_split _ _ _ _ found) as (l1 & l2 & -> & _ & Hn & _ & Ha & _).
  rewrite Ha, !callbacks_in_app, !callbacks_in_cons. simpl. rewrite Hn.
  by destruct (String.eqb_spec other name).
Qed.

Lemma callbacks_in_delete_other other :
  other ≠ name → callbacks_in other (delete p l) = callbacks_in other l.
Proof.
  intros Hne. destruct (found_split _ _ _ _ found) as (l1 & l2 & -> & _ & Hn & _ & _ & Hd).
  rewrite Hd, !callbacks_in_app, !callbacks_in_cons. rewrite Hn.
  by destruct (String.eqb_spec other name).
Qed.
End OneRecord.

Lemma callbacks_in_snoc_other other name cbs l :
  other ≠ name → callbacks_in other (l ++ [Name_data name cbs]) = callbacks_in other l.
Proof.
  intros Hne. rewrite callbacks_in_app, callbacks_in_cons. simpl.
  destruct (String.eqb_spec other name); [done|]. by destruct (callbacks_in other l).
Qed.

Lemma callbacks_in_snoc_same name cbs l :
  callbacks_in name l = None → callbacks_in name (l ++ [Name_data name cbs]) = Some cbs.
Proof.
  intros Hc. rewrite callbacks_in_app, Hc, callbacks_in_cons. simpl.
  by rewrite String.eqb_refl.
Qed.

(** ** Operations on one name leave the other names alone *)

Lemma name_listener_add_other x name f u s other :
  other ≠ name →
  callbacks_of other (state (name_listener_add x name f u s)) = callbacks_of other s.
Proof.
  intros Hne. rewrite name_listener_add_run. unfold callbacks_of, state. simpl.
  destruct (negb (name_listener_initialized s) && negb (add_filter_ok x)); [done|].
  destruct (negb (malloc_name_callback x)); [done|].
  destruct (find_from name (name_listeners s) 0) as [[p d]|] eqn:F; simpl.
  - by apply (callbacks_in_alter_other name _ _ d).
  - destruct (negb (malloc_name_data x) || negb (strdup_name x)); [done|].
    destruct (add_match_err x); simpl; [done|].
    by apply callbacks_in_snoc_other.
Qed.

Lemma name_listener_remove_other x name f u s other :
  other ≠ name →
  callbacks_of other (state (name_listener_remove x name f u s)) = callbacks_of other s.
Proof.
  intros Hne. rewrite name_listener_remove_run. unfold callbacks_of, state. simpl.
  destruct (find_from name (name_listeners s) 0) as [[p d]|] eqn:F; [|done].
  destruct (name_callback_find (nd_callbacks d) f u) as [c|]; [|done].
  destruct (delete c (nd_callbacks d)) as [|cb cbs].
  - destruct (remove_match_err x); simpl; by apply (callbacks_in_alter_other name _ _ d).
  - simpl. by apply (callbacks_in_alter_other name _ _ d).
Qed.

Lemma name_exit_filter_other message s other :
  subject (Deliver message) ≠ Some other →
  callbacks_of other (state (name_exit_filter message s)) = callbacks_of other s.
Proof.
  intros Hne. rewrite name_exit_filter_run. unfold callbacks_of, state. simpl in *.
  destruct (dbus_message_is_signal _ _ _); simpl; [|done].
  destruct (msg_args message) as [[[name old] new]|]; [|done].
  destruct new; [|done].
  destruct (find_from name (name_listeners s) 0) as [[p d]|] eqn:F; [|done].
  simpl. apply (callbacks_in_delete_other name _ _ d); [done|].
  intros ->. by apply Hne.
Qed.

(** C10.  A call about one service name (an add, a remove, or the delivery
    of a NameOwnerChanged signal naming it) leaves the record and the
    callback list of every other name as they were, whatever the allocator
    and the bus answer. *)
Theorem other_names_untouched (c : call) (s : registry) (other : string) :
  subject c ≠ Some other →
  callbacks_of other (state (perform c s)) = callbacks_of other s.
Proof.
  intros Hne. rewrite perform_state. destruct c as [x n f u|x n f u|m].
  - apply name_listener_add_other. intros ->. by apply Hne.
  - apply name_listener_remove_other. intros ->. by apply Hne.
  - by apply name_exit_filter_other.
Qed.

Lemma other_names_untouched_witness :
  let s := state (run [Add all_ok svc 1 10; Add all_ok long_svc 2 20] initial) in
  subject (Remove remove_match_fails long_svc 2 20) ≠ Some svc ∧
  callbacks_of svc (state (perform (Remove remove_match_fails long_svc 2 20) s)) =
  callbacks_of svc s.
Proof.
  intros s.
  assert (subject (Remove remove_match_fails long_svc 2 20) ≠ Some svc) as H
    by (vm_compute; discriminate).
  split; [exact H|].
  exact (other_names_untouched (Remove remove_match_fails long_svc 2 20) s svc H).
Defined.

(** ** Running a history call by call *)

Lemma perform_result c s :
  result (perform c s) =
  match c with
  | Add x name f u => Returned (result (name_listener_add x name f u s))
  | Remove x name f u => Returned (result (name_listener_remove x name f u s))
  | Deliver message => Filtered (result (name_exit_filter message s))
  end.
Proof.
  destruct c as [x n f u|x n f u|m]; unfold perform, bind, ret, result.
  - by destruct (name_listener_add x n f u s) as [[? ?] ?].
  - by destruct (name_listener_remove x n f u s) as [[? ?] ?].
  - by destruct (name_exit_filter m s) as [[? ?] ?].
Qed.

Lemma run_cons c cs s :
  result (run (c :: cs) s) = result (perform c s) :: result (run cs (state (perform c s))) ∧
  state (run (c :: cs) s) = state (run cs (state (perform c s))) ∧
  events (run (c :: cs) s) = events (perform c s) ++ events (run cs (state (perform c s))).
Proof.
  simpl. unfold bind, ret, result, state, events.
  destruct (perform c s) as [[o s1] e1]. simpl.
  destruct (run cs s1) as [[os s2] e2]. simpl. by rewrite app_nil_r.
Qed.

Lemma run_app cs1 cs2 s :
  state (run (cs1 ++ cs2) s) = state (run cs2 (state (run cs1 s))) ∧
  events (run (cs1 ++ cs2) s) = events (run cs1 s) ++ events (run cs2 (state (run cs1 s))).
Proof.
  revert s. induction cs1 as [|c cs1 IH]; intros s; [done|].
  rewrite <- app_comm_cons.
  destruct (run_cons c (cs1 ++ cs2) s) as (_ & -> & ->).
  destruct (run_cons c cs1 s) as (_ & -> & ->).
  destruct (IH (state (perform c s))) as [-> ->]. by rewrite app_assoc.
Qed.

(** ** One match rule per name *)

(** An add for a name that has a record appends to the record and talks to
    nobody but syslog. *)
Lemma name_listener_add_again x name f u s cbs :
  callbacks_of name s = Some cbs →
  name_listener_initialized s = true →
  malloc_name_callback x = true →
  name_listener_add x name f u s =
  (0, Registry true
        (match find_from name (name_listeners s) 0 with
         | Some (p, d) => alter (with_callbacks (cbs ++ [registration f u])) p (name_listeners s)
         | None => name_listeners s
         end),
   [debug_add name]) ∧
  callbacks_of name (state (name_listener_add x name f u s)) = Some (cbs ++ [registration f u]).
Proof.
  unfold callbacks_of, callbacks_in. intros Hc Hi Hm.
  rewrite name_listener_add_run. unfold prologue, state. rewrite Hi, Hm. simpl.
  destruct (find_from name (name_listeners s) 0) as [[p d]|] eqn:F; [|done].
  simpl in Hc. injection Hc as <-. split; [done|]. simpl.
  by rewrite (find_from_alter _ _ _ _ _ F).
Qed.

Lemma adds_again name rest : ∀ s cbs,
  callbacks_of name s = Some cbs →
  name_listener_initialized s = true →
  Forall (λ r, malloc_name_callback r.1.1 = true) rest →
  let later := run (adds name rest) s in
  Forall (λ o, o = Returned 0) (result later) ∧
  List.filter is_add_match (events later) = [] ∧
  callbacks_of name (state later) = Some (cbs ++ map (λ r, registration r.1.2 r.2) rest).
Proof.
  induction rest as [|[[x f] u] rest IH]; intros s cbs Hc Hi Hm.
  - simpl. unfold ret, result, state, events. simpl. by rewrite app_nil_r.
  - apply Forall_cons in Hm as [Hx Hm]. simpl in Hx.
    change (adds name ((x, f, u) :: rest)) with (Add x name f u :: adds name rest).
    cbv zeta.
    destruct (run_cons (Add x name f u) (adds name rest) s) as (-> & -> & ->).
    rewrite perform_result, perform_state, perform_events.
    destruct (name_listener_add_again x name f u s cbs Hc Hi Hx) as [E Hc'].
    destruct (IH (state (name_listener_add x name f u s)) _ Hc') as (IH1 & IH2 & IH3);
      [by rewrite E|done|].
    split_and!.
    + constructor; [by rewrite E|done].
    + rewrite List.filter_app, IH2. by rewrite E.
    + rewrite IH3. by rewrite <- app_assoc.
Qed.

(** C1.  Take a name that has no record, register a callback for it with an
    add that succeeds, and go on adding callbacks for the same name: the
    first add asks the bus for the match rule, exactly once, and every later
    add returns 0, appends its registration and asks for no match rule. *)
Theorem one_match_rule_per_name (s : registry) (name : string) (x : extern)
    (f : name_cb_t) (u : pointer) (rest : list (extern * name_cb_t * pointer)) :
  callbacks_of name s = None →
  succeeds x →
  Forall (λ r, malloc_name_callback r.1.1 = true) rest →
  let first := name_listener_add x name f u s in
  let later := run (adds name rest) (state first) in
  result first = 0 ∧
  List.filter is_add_match (events first) = [BusAddMatch (match_string name) None] ∧
  Forall (λ o, o = Returned 0) (result later) ∧
  List.filter is_add_match (events later) = [] ∧
  count is_add_match (events first ++ events later) = 1%nat ∧
  callbacks_of name (state later) =
    Some (registration f u :: map (λ r, registration r.1.2 r.2) rest).
Proof.
  intros Hc (Hm1 & Hm2 & Hm3 & Hf & Hb) Hrest first later.
  assert (first = (0, Registry true (name_listeners s ++ [Name_data name [registration f u]]),
                   prologue s name ++ [BusAddMatch (match_string name) None])) as E.
  { unfold first. rewrite name_listener_add_run. rewrite Hm1, Hm2, Hm3, Hf, Hb. simpl.
    rewrite andb_false_r. apply find_from_None in Hc. by rewrite Hc. }
  assert (List.filter is_add_match (events first) = [BusAddMatch (match_string name) None]) as E1.
  { rewrite E. unfold events, prologue. simpl. by destruct (name_listener_initialized s). }
  destruct (adds_again name rest (state first) [registration f u]) as (L1 & L2 & L3);
    [|by rewrite E|done|].
  { rewrite E. unfold state, callbacks_of. simpl. by apply callbacks_in_snoc_same. }
  fold later in L1, L2, L3.
  split_and!; try done.
  - by rewrite E.
  - unfold count. by rewrite List.filter_app, E1, L2.
Qed.

Lemma one_match_rule_per_name_witness :
  callbacks_of svc initial = None ∧
  count is_add_match
    (events (run (Add all_ok svc 1 10 :: adds svc [(all_ok, 2, 20); (all_ok, 3, 30)]) initial))
  = 1%nat.
Proof.
  split; [reflexivity|].
  destruct (one_match_rule_per_name initial svc all_ok 1 10 [(all_ok, 2, 20); (all_ok, 3, 30)])
    as (_ & _ & _ & _ & H & _).
  - reflexivity.
  - by vm_compute.
  - repeat constructor.
  - destruct (run_cons (Add all_ok svc 1 10) (adds svc [(all_ok, 2, 20); (all_ok, 3, 30)]) initial)
      as (_ & _ & ->).
    rewrite perform_events, perform_state. exact H.
Defined.

(** ** A failed install of the match rule *)

(** C5, as the code has it.  When [dbus_bus_add_match] reports an error
    during an add, the add returns -1 and the registration and the record
    that this call created are gone again: the name has no record and
    [name_listeners] is what it was before the call.  The attachment of the
    filter is not undone: the state is the old one with the filter
    attached, which is the old one itself when the filter was attached
    before. *)
Theorem failed_install_rolled_back (s : registry) (x : extern) (name : string)
    (f : name_cb_t) (u : pointer) (message : string) :
  let r := name_listener_add x name f u s in
  In (BusAddMatch (match_string name) (Some message)) (events r) →
  result r = -1 ∧
  callbacks_of name s = None ∧
  callbacks_of name (state r) = None ∧
  name_listeners (state r) = name_listeners s ∧
  state r = attached s ∧
  (name_listener_initialized s = true → state r = s).
Proof.
  intros r. subst r. rewrite name_listener_add_run.
  unfold result, state, events, prologue, callbacks_of. simpl.
  destruct s as [ini l]. simpl.
  destruct ini; simpl.
  - destruct (malloc_name_callback x); simpl; [|intros H; absurd_event H].
    destruct (find_from name l 0) as [[p d]|] eqn:F; simpl; [intros H; absurd_event H|].
    apply find_from_None in F.
    destruct (malloc_name_data x), (strdup_name x); simpl; try (intros H; absurd_event H).
    destruct (add_match_err x); simpl; intros H; [done|absurd_event H].
  - destruct (add_filter_ok x); simpl; [|intros H; absurd_event H].
    destruct (malloc_name_callback x); simpl; [|intros H; absurd_event H].
    destruct (find_from name l 0) as [[p d]|] eqn:F; simpl; [intros H; absurd_event H|].
    apply find_from_None in F.
    destruct (malloc_name_data x), (strdup_name x); simpl; try (intros H; absurd_event H).
    destruct (add_match_err x); simpl; intros H; [done|absurd_event H].
Qed.

Lemma failed_install_rolled_back_witness :
  In (BusAddMatch (match_string svc) (Some "org.freedesktop.DBus.Error.NoMemory"%string))
     (events (name_listener_add add_match_fails svc 1 10 initial)) ∧
  result (name_listener_add add_match_fails svc 1 10 initial) = -1 ∧
  name_listeners (state (name_listener_add add_match_fails svc 1 10 initial)) = [].
Proof.
  assert (In (BusAddMatch (match_string svc) (Some "org.freedesktop.DBus.Error.NoMemory"%string))
             (events (name_listener_add add_match_fails svc 1 10 initial))) as H.
  { vm_compute. right. right. left. reflexivity. }
  split; [exact H|].
  destruct (failed_install_rolled_back initial add_match_fails svc 1 10 _ H)
    as (Hr & _ & _ & Hl & _).
  split; [exact Hr | exact Hl].
Defined.

(** C5 as stated fails on the first add ever: when its request for the
    match rule fails, the registry is not what it was before the call,
    because the filter has been attached and the flag is set. *)
Lemma failed_first_install_keeps_filter :
  let r := name_listener_add add_match_fails svc 1 10 initial in
  In (BusAddMatch (match_string svc) (Some "org.freedesktop.DBus.Error.NoMemory"%string))
     (events r) ∧
  result r = -1 ∧
  state r ≠ initial ∧
  state r = Registry true [] ∧
  In (ConnectionAddFilter true) (events r).
Proof.
  vm_compute. split_and!; try done.
  - right. right. by left.
  - right. by left.
Qed.

(** ** Removing a registration *)

Lemma matches_registration f u cb : matches f u cb = true ↔ cb = registration f u.
Proof.
  destruct cb as [g v]. unfold matches, registration. simpl.
  rewrite andb_true_iff, !Z.eqb_eq. split; [intros [-> ->]|intros [= -> ->]]; done.
Qed.

(** [name_callback_find] points at the first registration of the pair. *)
Lemma name_callback_find_Some cbs f u c :
  name_callback_find cbs f u = Some c →
  ∃ l1 l2, cbs = l1 ++ registration f u :: l2 ∧ c = length l1 ∧
           (registration f u ∉ l1) ∧ delete c cbs = l1 ++ l2.
Proof.
  revert c. induction cbs as [|cb cbs IH]; intros c; simpl; [done|].
  fold (matches f u cb). destruct (matches f u cb) eqn:M.
  - intros [= <-]. apply matches_registration in M as ->.
    exists [], cbs. split_and!; try done. apply not_elem_of_nil.
  - destruct (name_callback_find cbs f u) as [c'|]; [|done]. simpl. intros [= <-].
    destruct (IH c' eq_refl) as (l1 & l2 & -> & -> & Hn & Hd).
    exists (cb :: l1), l2. split_and!; try done.
    + apply not_elem_of_cons. split; [|done]. intros E.
      symmetry in E. apply matches_registration in E. congruence.
    + simpl. by rewrite Hd.
Qed.

Lemma name_callback_find_None cbs f u :
  name_callback_find cbs f u = None ↔ registration f u ∉ cbs.
Proof.
  induction cbs as [|cb cbs IH]; simpl.
  - split; [intros _; apply not_elem_of_nil|done].
  - fold (matches f u cb). destruct (matches f u cb) eqn:M.
    + apply matches_registration in M as ->. split; [done|].
      intros H. exfalso. apply H. by left.
    + rewrite not_elem_of_cons, <- IH.
      destruct (name_callback_find cbs f u); simpl; split; try done.
      * by intros [_ ?].
      * intros _. split; [|done]. intros E.
        symmetry in E. apply matches_registration in E. congruence.
Qed.

Lemma names_alter cbs (p : nat) (l : list name_data) :
  nd_name <$> alter (with_callbacks cbs) p l = nd_name <$> l.
Proof.
  revert p. induction l as [|d l IH]; intros [|p]; simpl; try done.
  f_equal. apply IH.
Qed.

(** C2, as the code has it.  When the remove of the last registration of a
    name meets an error of [dbus_bus_remove_match], it returns -1 after the
    failed bus call and the record of the name stays in the registry:
    the records keep their names and places, the flag and every other name
    are unchanged. *)
Theorem failed_uninstall_keeps_record (s : registry) (x : extern) (name : string)
    (f : name_cb_t) (u : pointer) (message : string) :
  callbacks_of name s = Some [registration f u] →
  remove_match_err x = Some message →
  let r := name_listener_remove x name f u s in
  result r = -1 ∧
  In (BusRemoveMatch (match_string name) (Some message)) (events r) ∧
  is_Some (callbacks_of name (state r)) ∧
  nd_name <$> name_listeners (state r) = nd_name <$> name_listeners s ∧
  name_listener_initialized (state r) = name_listener_initialized s ∧
  ∀ other, other ≠ name → callbacks_of other (state r) = callbacks_of other s.
Proof.
  intros Hc Hx r.
  assert (∀ other, other ≠ name → callbacks_of other (state r) = callbacks_of other s)
    as Hother by (intros other Hne; by apply name_listener_remove_other).
  revert Hother. subst r. rewrite name_listener_remove_run.
  unfold callbacks_of, callbacks_in in Hc. unfold callbacks_of.
  destruct (find_from name (name_listeners s) 0) as [[p d]|] eqn:F; [|done].
  simpl in Hc. injection Hc as Hc. simpl. rewrite Hc, name_callback_find_self. simpl.
  rewrite Hx. unfold result, state, events. simpl. intros Hother.
  split_and!; try done.
  - right. by left.
  - by rewrite (callbacks_in_alter_same name _ _ d).
  - apply names_alter.
Qed.

Lemma failed_uninstall_keeps_record_witness :
  let s := state (name_listener_add all_ok svc 1 10 initial) in
  callbacks_of svc s = Some [registration 1 10] ∧
  result (name_listener_remove remove_match_fails svc 1 10 s) = -1 ∧
  is_Some (callbacks_of svc (state (name_listener_remove remove_match_fails svc 1 10 s))).
Proof.
  intros s.
  assert (callbacks_of svc s = Some [registration 1 10]) as H by reflexivity.
  split; [exact H|].
  destruct (failed_uninstall_keeps_record s remove_match_fails svc 1 10 _ H eq_refl)
    as (Hr & _ & Hk & _).
  split; [exact Hr | exact Hk].
Defined.

(** C2 as stated fails: after the failed removal of the match rule the
    registry is not what it was, the registration has been unlinked and a
    second remove does not find it. *)
Lemma failed_uninstall_changes_registry :
  let s := state (name_listener_add all_ok svc 1 10 initial) in
  let r := name_listener_remove remove_match_fails svc 1 10 s in
  callbacks_of svc s = Some [registration 1 10] ∧
  result r = -1 ∧
  state r ≠ s ∧
  callbacks_of svc (state r) = Some [] ∧
  result (name_listener_remove all_ok svc 1 10 (state r)) = -1.
Proof. by vm_compute. Qed.

(** C3 fails on the code: a remove of the last registration that succeeds
    on the bus leaves the record of the name in [name_listeners] with no
    callback at all, because [name_listener_remove] has unlinked the
    callback before it calls [name_data_remove], which then finds no
    callback and returns without freeing the record. *)
Theorem empty_record_survives_remove :
  let r := run [Add all_ok svc 1 10; Remove all_ok svc 1 10] initial in
  result r = [Returned 0; Returned 0] ∧
  name_listeners (state r) = [Name_data svc []] ∧
  callbacks_of svc (state r) = Some [].
Proof. by vm_compute. Qed.

(** The record left behind makes the next add for the name skip the match
    rule that the remove has just taken away. *)
Example stale_record_blocks_match_rule :
  let r := run [Add all_ok svc 1 10; Remove all_ok svc 1 10; Add all_ok svc 1 10] initial in
  result r = [Returned 0; Returned 0; Returned 0] ∧
  List.filter (λ e, is_add_match e || is_remove_match e) (events r) =
    [BusAddMatch (match_string svc) None; BusRemoveMatch (match_string svc) None] ∧
  callbacks_of svc (state r) = Some [registration 1 10].
Proof. by vm_compute. Qed.

(** The same holds from every state: whenever a remove takes the last
    callback of a record, the record stays, empty. *)
Lemma last_remove_leaves_empty_record s x name f u :
  callbacks_of name s = Some [registration f u] →
  callbacks_of name (state (name_listener_remove x name f u s)) = Some [].
Proof.
  intros Hc. rewrite name_listener_remove_run.
  unfold callbacks_of, callbacks_in in Hc. unfold callbacks_of.
  destruct (find_from name (name_listeners s) 0) as [[p d]|] eqn:F; [|done].
  simpl in Hc. injection Hc as Hc. simpl. rewrite Hc, name_callback_find_self. simpl.
  destruct (remove_match_err x); unfold state; simpl;
    by rewrite (callbacks_in_alter_same name _ _ d).
Qed.

(** ** Allocation failures *)

(** C4 fails on the code: when an allocation of [name_data_add] fails,
    [name_listener_add] returns 0, the code of a successful registration,
    although nothing was registered. *)
Theorem allocation_failure_reported_as_success :
  let r1 := name_listener_add no_callback_memory svc 1 10 initial in
  let r2 := name_listener_add no_data_memory svc 1 10 initial in
  let r3 := name_listener_add no_name_memory svc 1 10 initial in
  (result r1 = 0 ∧ name_listeners (state r1) = [] ∧ count is_add_match (events r1) = 0%nat) ∧
  (result r2 = 0 ∧ name_listeners (state r2) = [] ∧ count is_add_match (events r2) = 0%nat) ∧
  (result r3 = 0 ∧ name_listeners (state r3) = [] ∧ count is_add_match (events r3) = 0%nat).
Proof. by vm_compute. Qed.

(** In general: if the filter is or gets attached and an allocation fails,
    the add returns 0, leaves [name_listeners] alone and installs no match
    rule. *)
Lemma allocation_failure_returns_0 s x name f u :
  name_listener_initialized s = true ∨ add_filter_ok x = true →
  malloc_name_callback x = false ∨
  (callbacks_of name s = None ∧ (malloc_name_data x = false ∨ strdup_name x = false)) →
  let r := name_listener_add x name f u s in
  result r = 0 ∧ name_listeners (state r) = name_listeners s ∧
  count is_add_match (events r) = 0%nat.
Proof.
  intros Ha Hm r. subst r. rewrite name_listener_add_run.
  assert (negb (name_listener_initialized s) && negb (add_filter_ok x) = false) as ->.
  { destruct Ha as [-> | ->]; [done|apply andb_false_r]. }
  assert (count is_add_match (prologue s name) = 0%nat) as Hp.
  { unfold prologue, count. simpl. by destruct (name_listener_initialized s). }
  destruct Hm as [-> | [Hc Hm]]; simpl; [done|].
  destruct (negb (malloc_name_callback x)); [done|].
  apply find_from_None in Hc. rewrite Hc.
  by destruct Hm as [-> | ->]; simpl; rewrite ?orb_true_r.
Qed.

(** ** Duplicate registrations *)

(** An add that succeeds puts its registration at the end of the callback
    list of the name, which is empty when the name had no record. *)
Lemma name_listener_add_appends s x name f u :
  succeeds x →
  let r := name_listener_add x name f u s in
  result r = 0 ∧
  name_listener_initialized (state r) = true ∧
  callbacks_of name (state r) =
    Some (default [] (callbacks_of name s) ++ [registration f u]).
Proof.
  intros (Hm1 & Hm2 & Hm3 & Hf & Hb) r. subst r. rewrite name_listener_add_run.
  rewrite Hm1, Hm2, Hm3, Hf, Hb, andb_false_r. simpl.
  unfold callbacks_of. unfold callbacks_in at 2.
  destruct (find_from name (name_listeners s) 0) as [[p d]|] eqn:F; unfold result, state; simpl.
  - split_and!; try done. by apply (callbacks_in_alter_same name _ _ d).
  - split_and!; try done. apply callbacks_in_snoc_same. by apply find_from_None.
Qed.

(** A remove that finds the pair takes the first registration of the pair
    out of the list; when others remain it does not talk to the bus. *)
Lemma name_listener_remove_first s x name f u l1 l2 :
  callbacks_of name s = Some (l1 ++ registration f u :: l2) →
  registration f u ∉ l1 →
  l1 ++ l2 ≠ [] →
  let r := name_listener_remove x name f u s in
  result r = 0 ∧ events r = [debug_remove name] ∧
  callbacks_of name (state r) = Some (l1 ++ l2).
Proof.
  intros Hc Hn Hne r. subst r. rewrite name_listener_remove_run.
  unfold callbacks_of, callbacks_in in Hc. unfold callbacks_of.
  destruct (find_from name (name_listeners s) 0) as [[p d]|] eqn:F; [|done].
  simpl in Hc. injection Hc as Hc. simpl.
  destruct (name_callback_find (nd_callbacks d) f u) as [c|] eqn:C.
  - apply name_callback_find_Some in C as (k1 & k2 & E & -> & Hk & Hd).
    assert (k1 = l1 ∧ k2 = l2) as [-> ->].
    { rewrite Hc in E. clear -E Hk Hn. revert k1 E Hk.
      induction l1 as [|a l1 IH]; intros [|b k1] E Hk; simpl in E.
      - by injection E as ->.
      - injection E as <- _. exfalso. apply Hk. by left.
      - injection E as -> _. exfalso. apply Hn. by left.
      - injection E as -> E. apply not_elem_of_cons in Hn as [_ Hn].
        apply not_elem_of_cons in Hk as [_ Hk].
        by destruct (IH Hn k1 E Hk) as [-> ->]. }
    rewrite Hd. destruct (l1 ++ l2) as [|cb cbs] eqn:L; [done|].
    unfold result, state, events. simpl.
    split_and!; try done. by apply (callbacks_in_alter_same name _ _ d).
  - apply name_callback_find_None in C. exfalso. apply C. rewrite Hc.
    apply elem_of_app. right. by left.
Qed.

(** C8.  Two adds of the same (name, callback, context) that succeed leave
    two registrations at the end of the callback list of the name; one
    remove for the triple then returns 0, takes out exactly one of them, the
    first registration of the pair in the list, keeps every other
    registration in place and makes no bus call, so the match rule stays. *)
Theorem duplicate_registrations_independent (s : registry) (x1 x2 x3 : extern)
    (name : string) (f : name_cb_t) (u : pointer) :
  succeeds x1 → succeeds x2 →
  let before := default [] (callbacks_of name s) in
  let s2 := state (run [Add x1 name f u; Add x2 name f u] s) in
  let r := name_listener_remove x3 name f u s2 in
  callbacks_of name s2 = Some (before ++ [registration f u; registration f u]) ∧
  result r = 0 ∧
  events r = [debug_remove name] ∧
  ∃ l1 l2, before ++ [registration f u; registration f u] = l1 ++ registration f u :: l2 ∧
           (registration f u ∉ l1) ∧
           callbacks_of name (state r) = Some (l1 ++ l2) ∧
           registration f u ∈ l1 ++ l2.
Proof.
  intros H1 H2 before s2 r.
  assert (callbacks_of name s2 = Some (before ++ [registration f u; registration f u])) as Hs2.
  { subst s2.
    destruct (run_cons (Add x1 name f u) [Add x2 name f u] s) as (_ & -> & _).
    destruct (run_cons (Add x2 name f u) [] (state (perform (Add x1 name f u) s)))
      as (_ & -> & _).
    rewrite !perform_state. simpl. unfold ret, state at 1. simpl.
    destruct (name_listener_add_appends s x1 name f u H1) as (_ & _ & E1).
    destruct (name_listener_add_appends (state (name_listener_add x1 name f u s))
                x2 name f u H2) as (_ & _ & E2).
    rewrite E2, E1. simpl. by rewrite <- app_assoc. }
  split; [done|].
  assert (∃ l1 l2, before ++ [registration f u; registration f u]
                   = l1 ++ registration f u :: l2 ∧
                   (registration f u ∉ l1) ∧ registration f u ∈ l2) as (l1 & l2 & E & Hn & Hin).
  { destruct (name_callback_find before f u) as [c|] eqn:C.
    - apply name_callback_find_Some in C as (k1 & k2 & E & _ & Hk & _).
      exists k1, (k2 ++ [registration f u; registration f u]).
      split_and!; [by rewrite E, <- app_assoc|done|].
      apply elem_of_app. right. by left.
    - apply name_callback_find_None in C.
      exists before, [registration f u]. split_and!; [done|done|by left]. }
  rewrite E in Hs2.
  destruct (name_listener_remove_first s2 x3 name f u l1 l2 Hs2 Hn) as (Hr & He & Hc).
  { intros L. apply app_eq_nil in L as [_ ->]. by apply elem_of_nil in Hin. }
  split_and!; try done. exists l1, l2. split_and!; try done.
  apply elem_of_app. by right.
Qed.

Lemma duplicate_registrations_independent_witness :
  let s2 := state (run [Add all_ok svc 1 10; Add all_ok svc 1 10] initial) in
  succeeds all_ok ∧
  callbacks_of svc s2 = Some [registration 1 10; registration 1 10] ∧
  result (name_listener_remove all_ok svc 1 10 s2) = 0 ∧
  events (name_listener_remove all_ok svc 1 10 s2) = [debug_remove svc].
Proof.
  intros s2.
  assert (succeeds all_ok) as H by (by vm_compute).
  split; [exact H|].
  destruct (duplicate_registrations_independent initial all_ok all_ok all_ok svc 1 10 H H)
    as (Hc & Hr & He & _).
  split; [exact Hc|]. split; [exact Hr | exact He].
Defined.

(** ** Names are registered once *)

Lemma callbacks_in_None_names name (l : list name_data) :
  callbacks_in name l = None ↔ name ∉ nd_name <$> l.
Proof.
  induction l as [|d l IH]; simpl.
  - split; [intros _; apply not_elem_of_nil|done].
  - rewrite callbacks_in_cons, not_elem_of_cons, <- IH.
    destruct (String.eqb_spec name (nd_name d)); split; try done.
    + by intros [? _].
    + by intros [_ ?].
Qed.

Lemma perform_distinct c s :
  NoDup (nd_name <$> name_listeners s) →
  NoDup (nd_name <$> name_listeners (state (perform c s))).
Proof.
  intros Hs. rewrite perform_state. destruct c as [x n f u|x n f u|m].
  - rewrite name_listener_add_run. unfold state. simpl.
    destruct (negb (name_listener_initialized s) && negb (add_filter_ok x)); [done|].
    destruct (negb (malloc_name_callback x)); [done|].
    destruct (find_from n (name_listeners s) 0) as [[p d]|] eqn:F; simpl.
    + by rewrite names_alter.
    + destruct (negb (malloc_name_data x) || negb (strdup_name x)); [done|].
      destruct (add_match_err x); simpl; [done|].
      rewrite fmap_app. apply NoDup_app. split_and!; [done| |apply NoDup_singleton].
      intros y Hy Hy'. simpl in Hy'. apply list_elem_of_singleton in Hy' as ->.
      apply find_from_None, callbacks_in_None_names in F. by apply F.
  - rewrite name_listener_remove_run. unfold state. simpl.
    destruct (find_from n (name_listeners s) 0) as [[p d]|] eqn:F; [|done].
    destruct (name_callback_find (nd_callbacks d) f u) as [c|]; [|done].
    destruct (delete c (nd_callbacks d)) as [|cb cbs].
    + destruct (remove_match_err x); simpl; by rewrite names_alter.
    + simpl. by rewrite names_alter.
  - rewrite name_exit_filter_run. unfold state. simpl.
    destruct (dbus_message_is_signal _ _ _); simpl; [|done].
    destruct (msg_args m) as [[[name old] new]|]; [|done].
    destruct new; [|done].
    destruct (find_from name (name_listeners s) 0) as [[p d]|] eqn:F; [|done].
    simpl. destruct (found_split _ _ _ _ F) as (l1 & l2 & E & _ & _ & _ & _ & ->).
    rewrite E in Hs. rewrite fmap_app in *. simpl in Hs.
    apply NoDup_app in Hs as (N1 & N2 & N3). apply NoDup_cons in N3 as [_ N3].
    apply NoDup_app. split_and!; [done| |done].
    intros y Hy Hy'. apply (N2 y Hy). by right.
Qed.

Lemma run_distinct cs : ∀ s,
  NoDup (nd_name <$> name_listeners s) →
  NoDup (nd_name <$> name_listeners (state (run cs s))).
Proof.
  induction cs as [|c cs IH]; intros s Hs; [done|].
  destruct (run_cons c cs s) as (_ & -> & _). by apply IH, perform_distinct.
Qed.

(** ** The filter is attached once, and before any match rule *)

Lemma count_app kind (l1 l2 : list event) :
  count kind (l1 ++ l2) = (count kind l1 + count kind l2)%nat.
Proof. unfold count. by rewrite List.filter_app, length_app. Qed.

Lemma well_ordered_app l1 : ∀ a l2,
  well_ordered a (l1 ++ l2) =
  well_ordered a l1 && well_ordered (a || negb (count is_attach l1 =? 0)%nat) l2.
Proof.
  induction l1 as [|e l1 IH]; intros a l2; simpl.
  - by rewrite orb_false_r.
  - destruct e as [| [|] | | |]; rewrite ?IH; try done.
    + unfold count. simpl. by rewrite orb_true_r.
    + unfold count. simpl. by rewrite andb_assoc.
Qed.

Lemma well_ordered_sound log :
  well_ordered false log = true → rules_after_attach log.
Proof.
  intros H before rule err after ->. revert H.
  assert (∀ a, well_ordered a (before ++ BusAddMatch rule err :: after) = true →
               a = true ∨ In (ConnectionAddFilter true) before) as G.
  { induction before as [|e before IH]; intros a; simpl.
    - intros [-> _]%andb_true_iff. by left.
    - destruct e as [| [|] | | |]; intros H;
        try apply andb_true_iff in H as [_ H]; destruct (IH _ H); auto. }
  intros H. by destruct (G _ H).
Qed.

Lemma callbacks_quiet name cbs a :
  let log := map (λ cb, Callback (cb_func cb) name (cb_user_data cb)) cbs in
  count is_attach log = 0%nat ∧ well_ordered a log = true ∧
  List.filter is_add_filter log = [].
Proof. induction cbs as [|cb cbs IH]; [done|]. apply IH. Qed.

(** What one call does to the flag and what it tells the bus about the
    filter. *)
Lemma perform_attach c s :
  let r := perform c s in
  (name_listener_initialized s = true → name_listener_initialized (state r) = true) ∧
  count is_attach (events r) =
    (if name_listener_initialized s then 0
     else if name_listener_initialized (state r) then 1 else 0)%nat ∧
  well_ordered (name_listener_initialized s) (events r) = true ∧
  (name_listeners s = [] → name_listener_initialized (state r) = false →
   name_listeners (state r) = []) ∧
  (name_listener_initialized s = true → List.filter is_add_filter (events r) = []).
Proof.
  cbv zeta. rewrite perform_state, perform_events.
  destruct s as [ini l]. destruct c as [x n f u|x n f u|m].
  - rewrite name_listener_add_run. unfold state, events, prologue. simpl.
    destruct ini; simpl.
    + destruct (malloc_name_callback x); simpl; [|done].
      destruct (find_from n l 0) as [[p d]|]; simpl; [done|].
      destruct (negb (malloc_name_data x) || negb (strdup_name x)); [done|].
      by destruct (add_match_err x).
    + destruct (add_filter_ok x); simpl; [|done].
      destruct (malloc_name_callback x); simpl; [|done].
      destruct (find_from n l 0) as [[p d]|]; simpl; [done|].
      destruct (negb (malloc_name_data x) || negb (strdup_name x)); [done|].
      by destruct (add_match_err x).
  - rewrite name_listener_remove_run. unfold state, events. simpl.
    destruct (find_from n l 0) as [[p d]|]; simpl; [|by destruct ini].
    destruct (name_callback_find (nd_callbacks d) f u) as [c|]; simpl; [|by destruct ini].
    destruct (delete c (nd_callbacks d)) as [|cb cbs]; simpl.
    + destruct (remove_match_err x); simpl; destruct ini; split_and!; try done;
        by intros ->.
    + destruct ini; split_and!; try done; by intros ->.
  - rewrite name_exit_filter_run. unfold state, events. simpl.
    destruct (dbus_message_is_signal _ _ _); simpl; [|by destruct ini].
    destruct (msg_args m) as [[[name old] new]|]; simpl; [|by destruct ini].
    destruct new; simpl; [|by destruct ini].
    destruct (find_from name l 0) as [[p d]|] eqn:F; simpl; [|by destruct ini].
    destruct (callbacks_quiet name (nd_callbacks d) ini) as (-> & -> & ->).
    destruct ini; split_and!; try done; by intros ->.
Qed.

Lemma run_attach cs : ∀ s log,
  count is_attach log = (if name_listener_initialized s then 1 else 0)%nat →
  well_ordered false log = true →
  (name_listener_initialized s = false → name_listeners s = []) →
  let r := run cs s in
  count is_attach (log ++ events r) =
    (if name_listener_initialized (state r) then 1 else 0)%nat ∧
  well_ordered false (log ++ events r) = true ∧
  (name_listener_initialized (state r) = false → name_listeners (state r) = []).
Proof.
  induction cs as [|c cs IH]; intros s log H1 H2 H3; cbv zeta.
  - simpl. unfold ret, state, events. simpl. by rewrite app_nil_r.
  - destruct (run_cons c cs s) as (_ & -> & ->). rewrite app_assoc.
    destruct (perform_attach c s) as (P1 & P2 & P3 & P4 & _).
    apply IH.
    + rewrite count_app, H1, P2.
      destruct (name_listener_initialized s); [by rewrite (P1 eq_refl)|done].
    + rewrite well_ordered_app, H2, H1. simpl.
      by destruct (name_listener_initialized s).
    + intros E. apply P4; [|done]. apply H3.
      destruct (name_listener_initialized s); [|done]. by rewrite P1 in E.
Qed.

Lemma run_attached cs : ∀ s,
  name_listener_initialized s = true →
  name_listener_initialized (state (run cs s)) = true ∧
  count is_add_filter (events (run cs s)) = 0%nat.
Proof.
  induction cs as [|c cs IH]; intros s Hs; [done|].
  destruct (run_cons c cs s) as (_ & -> & ->).
  destruct (perform_attach c s) as (P1 & _ & _ & _ & P5).
  destruct (IH _ (P1 Hs)) as [I1 I2]. split; [done|].
  rewrite count_app, I2. unfold count. by rewrite (P5 Hs).
Qed.

(** C9.  Along every history of calls from the initial state:
    [dbus_connection_add_filter] succeeds at most once, and it has
    succeeded exactly when the flag is set; every request for a match rule
    comes after that successful attachment; a registry that holds a record
    has the flag set; and once the flag is set it stays set and no later
    call, whatever it is, calls [dbus_connection_add_filter] again. *)
Theorem filter_attached_once (cs : list call) :
  let r := run cs initial in
  (count is_attach (events r) ≤ 1)%nat ∧
  (name_listener_initialized (state r) = true ↔ count is_attach (events r) = 1%nat) ∧
  rules_after_attach (events r) ∧
  (name_listeners (state r) ≠ [] → name_listener_initialized (state r) = true) ∧
  (name_listener_initialized (state r) = true →
   ∀ more, name_listener_initialized (state (run more (state r))) = true ∧
           count is_add_filter (events (run more (state r))) = 0%nat).
Proof.
  cbv zeta. destruct (run_attach cs initial [] eq_refl eq_refl (λ _, eq_refl))
    as (H1 & H2 & H3). simpl in H1, H2.
  split_and!.
  - rewrite H1. destruct (name_listener_initialized _); lia.
  - rewrite H1. by destruct (name_listener_initialized _).
  - by apply well_ordered_sound.
  - intros Hne. destruct (name_listener_initialized _); [done|]. by destruct Hne, H3.
  - intros Hi more. by apply run_attached.
Qed.

Lemma filter_attached_once_witness :
  let cs := [Add no_callback_memory svc 1 10; Add all_ok svc 1 10;
             Deliver (name_lost svc ":1.42"); Add all_ok svc 2 20] in
  name_listener_initialized (state (run cs initial)) = true ∧
  count is_attach (events (run cs initial)) = 1%nat ∧
  count is_add_filter (events (run [Add all_ok svc 3 30] (state (run cs initial)))) = 0%nat.
Proof.
  intros cs.
  destruct (filter_attached_once cs) as (_ & Hiff & _ & _ & Hlater).
  assert (name_listener_initialized (state (run cs initial)) = true) as H by reflexivity.
  split; [exact H|]. split; [by apply Hiff|]. apply (Hlater H).
Defined.

(** ** The text of the match rule *)

Lemma substring_whole (s : string) (n : nat) :
  (String.length s ≤ n)%nat → String.substring 0 n s = s.
Proof.
  revert n. induction s as [|a s IH]; intros [|n]; simpl; try done; try lia.
  intros H. f_equal. apply IH. lia.
Qed.

Lemma length_append (s t : string) :
  String.length (s +:+ t) = (String.length s + String.length t)%nat.
Proof. induction s as [|a s IH]; simpl; [done|]. by rewrite IH. Qed.

Lemma match_string_short name :
  (String.length name ≤ 67)%nat → match_string name = match_format name.
Proof.
  intros H. unfold match_string, snprintf. apply substring_whole.
  unfold match_format. rewrite !length_append. simpl. lia.
Qed.

(** C7, as the code has it.  The rule that an add hands to
    [dbus_bus_add_match] and the rule that a remove hands to
    [dbus_bus_remove_match] are the same text: the first 127 bytes of
    "interface=" + the bus interface name + ",member=NameOwnerChanged,arg0="
    + the service name, which is what fits the 128-byte buffer; it is the
    whole concatenation for every name of at most 67 bytes. *)
Theorem match_rule_text (s : registry) (x : extern) (name : string)
    (f : name_cb_t) (u : pointer) (rule : string) (err : option string) :
  In (BusAddMatch rule err) (events (name_listener_add x name f u s)) ∨
  In (BusRemoveMatch rule err) (events (name_listener_remove x name f u s)) →
  rule = String.substring 0 127
           ("interface=" +:+ DBUS_INTERFACE_DBUS +:+ ",member=NameOwnerChanged,arg0="
            +:+ name) ∧
  ((String.length name ≤ 67)%nat →
   rule = "interface=" +:+ DBUS_INTERFACE_DBUS +:+ ",member=NameOwnerChanged,arg0="
          +:+ name).
Proof.
  intros H.
  assert (rule = match_string name) as ->.
  { destruct H as [H|H]; revert H.
    - rewrite name_listener_add_run. unfold events, prologue. simpl.
      destruct (negb (name_listener_initialized s) && negb (add_filter_ok x));
        [intros H; absurd_event H|].
      destruct (name_listener_initialized s); simpl;
        (destruct (negb (malloc_name_callback x)); [intros H; absurd_event H|]);
        (destruct (find_from name (name_listeners s) 0) as [[p d]|];
           [intros H; absurd_event H|]);
        (destruct (negb (malloc_name_data x) || negb (strdup_name x));
           [intros H; absurd_event H|]);
        destruct (add_match_err x); simpl; intros H;
        repeat (destruct H as [H|H]; [try discriminate H; by injection H|]);
        destruct H.
    - rewrite name_listener_remove_run. unfold events. simpl.
      destruct (find_from name (name_listeners s) 0) as [[p d]|];
        [|intros H; absurd_event H].
      destruct (name_callback_find (nd_callbacks d) f u) as [c|];
        [|intros H; absurd_event H].
      destruct (delete c (nd_callbacks d)); [|intros H; absurd_event H].
      destruct (remove_match_err x); simpl; intros H;
        repeat (destruct H as [H|H]; [try discriminate H; by injection H|]);
        destruct H. }
  split; [done|]. apply match_string_short.
Qed.

Lemma match_rule_text_witness :
  In (BusAddMatch "interface=org.freedesktop.DBus,member=NameOwnerChanged,arg0=org.example.Svc"
        None)
     (events (name_listener_add all_ok svc 1 10 initial)) ∧
  (String.length svc ≤ 67)%nat ∧
  "interface=org.freedesktop.DBus,member=NameOwnerChanged,arg0=org.example.Svc"%string =
  ("interface=" +:+ DBUS_INTERFACE_DBUS +:+ ",member=NameOwnerChanged,arg0=" +:+ svc).
Proof.
  assert (In (BusAddMatch
                "interface=org.freedesktop.DBus,member=NameOwnerChanged,arg0=org.example.Svc"
                None)
             (events (name_listener_add all_ok svc 1 10 initial))) as H.
  { vm_compute. right. right. left. reflexivity. }
  assert (String.length svc ≤ 67)%nat as L by (vm_compute; lia).
  split; [exact H|]. split; [exact L|].
  destruct (match_rule_text initial all_ok svc 1 10 _ None (or_introl H)) as [_ E].
  exact (E L).
Defined.

(** C7 as stated fails for long names: for a bus name of 68 bytes the rule
    that add and remove hand to the bus has lost the last byte of the name. *)
Lemma long_name_rule_is_cut :
  let s := state (name_listener_add all_ok long_svc 1 10 initial) in
  let rule := match_string long_svc in
  String.length long_svc = 68%nat ∧
  In (BusAddMatch rule None) (events (name_listener_add all_ok long_svc 1 10 initial)) ∧
  In (BusRemoveMatch rule None) (events (name_listener_remove all_ok long_svc 1 10 s)) ∧
  rule ≠ ("interface=" +:+ DBUS_INTERFACE_DBUS +:+ ",member=NameOwnerChanged,arg0="
          +:+ long_svc) ∧
  rule = ("interface=" +:+ DBUS_INTERFACE_DBUS +:+ ",member=NameOwnerChanged,arg0="
          +:+ "org.example.Bluetooth.Service.With.A.Rather.Long.WellKnown.BusName.").
Proof.
  vm_compute. split_and!; try done.
  - right. right. by left.
  - right. by left.
Qed.

(** * Further properties of the registry code *)

(** ** What the two lookups return *)

(** X1.  [name_data_find] changes nothing and logs nothing; a pointer it
    returns is the place of the first record of [name_listeners] that
    carries the name, and it returns NULL exactly when no record carries
    the name. *)
Theorem name_data_find_first (name : string) (s : registry) :
  state (name_data_find name s) = s ∧
  events (name_data_find name s) = [] ∧
  (∀ p d, result (name_data_find name s) = Some (p, d) →
          name_listeners s !! p = Some d ∧ nd_name d = name ∧
          ∀ j e, (j < p)%nat → name_listeners s !! j = Some e → nd_name e ≠ name) ∧
  (result (name_data_find name s) = None ↔ name ∉ nd_name <$> name_listeners s).
Proof.
  unfold name_data_find, bind, ret, get_listeners, state, events, result. simpl.
  split_and!; try done.
  - intros p d F. destruct (found_split _ _ _ _ F) as (l1 & l2 & E & -> & Hn & Hc & _).
    rewrite E. split_and!; [by apply list_lookup_middle|done|].
    intros j e Hj. rewrite lookup_app_l by done. intros He <-.
    apply callbacks_in_None_names in Hc. apply Hc.
    apply list_elem_of_fmap. exists e. split; [done|]. by eapply list_elem_of_lookup_2.
  - by rewrite find_from_None, callbacks_in_None_names.
Qed.

Lemma name_data_find_first_witness :
  let s := state (run [Add all_ok svc 1 10; Add all_ok long_svc 2 20] initial) in
  result (name_data_find long_svc s) = Some (1%nat, Name_data long_svc [registration 2 20]) ∧
  name_listeners s !! 1%nat = Some (Name_data long_svc [registration 2 20]).
Proof.
  intros s.
  assert (result (name_data_find long_svc s)
          = Some (1%nat, Name_data long_svc [registration 2 20])) as H by reflexivity.
  split; [exact H|].
  destruct (name_data_find_first long_svc s) as (_ & _ & Hp & _).
  by destruct (Hp _ _ H) as (Hl & _).
Defined.

(** X2.  [name_callback_find] compares both the function pointer and the
    user data: a pointer it returns is the place of the first registration
    of exactly that pair, and it returns NULL exactly when the pair is not
    in the list. *)
Theorem name_callback_find_first (cbs : list name_callback) (f : name_cb_t) (u : pointer) :
  (∀ c, name_callback_find cbs f u = Some c →
        cbs !! c = Some (registration f u) ∧
        ∀ j, (j < c)%nat → cbs !! j ≠ Some (registration f u)) ∧
  (name_callback_find cbs f u = None ↔ registration f u ∉ cbs).
Proof.
  split; [|apply name_callback_find_None].
  intros c C. apply name_callback_find_Some in C as (l1 & l2 & -> & -> & Hn & _).
  split; [by apply list_lookup_middle|].
  intros j Hj. rewrite lookup_app_l by done. intros He.
  apply Hn. by eapply list_elem_of_lookup_2.
Qed.

Lemma name_callback_find_first_witness :
  name_callback_find [registration 1 10; registration 1 20; registration 1 20] 1 20
    = Some 1%nat ∧
  [registration 1 10; registration 1 20; registration 1 20] !! 0%nat ≠ Some (registration 1 20).
Proof.
  assert (name_callback_find [registration 1 10; registration 1 20; registration 1 20] 1 20
          = Some 1%nat) as H by reflexivity.
  split; [exact H|].
  destruct (name_callback_find_first
              [registration 1 10; registration 1 20; registration 1 20] 1 20) as [Hp _].
  destruct (Hp _ H) as [_ Hb]. apply Hb. lia.
Defined.

(** ** Removing what is not there *)

(** X3.  A remove for a name that has no record returns -1, leaves the
    registry as it is and makes no call to the bus: it only writes its two
    syslog lines. *)
Theorem remove_unknown_name (s : registry) (x : extern) (name : string)
    (f : name_cb_t) (u : pointer) :
  callbacks_of name s = None →
  let r := name_listener_remove x name f u s in
  result r = -1 ∧ state r = s ∧
  events r = [debug_remove name;
              Syslog LOG_ERR ("remove_name_listener: no listener for " +:+ name)].
Proof.
  intros Hc r. subst r. rewrite name_listener_remove_run.
  apply find_from_None in Hc. cbv zeta. by rewrite Hc.
Qed.

Lemma remove_unknown_name_witness :
  callbacks_of svc initial = None ∧
  result (name_listener_remove all_ok svc 1 10 initial) = -1 ∧
  state (name_listener_remove all_ok svc 1 10 initial) = initial.
Proof.
  assert (callbacks_of svc initial = None) as H by reflexivity.
  split; [exact H|].
  destruct (remove_unknown_name initial all_ok svc 1 10 H) as (Hr & Hs & _).
  split; [exact Hr | exact Hs].
Defined.

(** X4.  A remove for a pair (callback, user data) that is not registered
    under the name returns -1, leaves the registry as it is and makes no
    call to the bus, also when only one of the two components differs from
    a registered pair. *)
Theorem remove_unknown_callback (s : registry) (x : extern) (name : string)
    (f : name_cb_t) (u : pointer) (cbs : list name_callback) :
  callbacks_of name s = Some cbs →
  registration f u ∉ cbs →
  let r := name_listener_remove x name f u s in
  result r = -1 ∧ state r = s ∧
  events r = [debug_remove name;
              Syslog LOG_ERR ("No matching callback found for " +:+ name)].
Proof.
  intros Hc Hn r. subst r. rewrite name_listener_remove_run.
  unfold callbacks_of, callbacks_in in Hc. cbv zeta.
  destruct (find_from name (name_listeners s) 0) as [[p d]|]; [|done].
  simpl in Hc. injection Hc as Hc.
  apply name_callback_find_None in Hn. by rewrite Hc, Hn.
Qed.

Lemma remove_unknown_callback_witness :
  let s := state (name_listener_add all_ok svc 1 10 initial) in
  callbacks_of svc s = Some [registration 1 10] ∧
  (registration 1 20 ∉ [registration 1 10]) ∧
  result (name_listener_remove all_ok svc 1 20 s) = -1 ∧
  state (name_listener_remove all_ok svc 1 20 s) = s.
Proof.
  intros s.
  assert (callbacks_of svc s = Some [registration 1 10]) as H by reflexivity.
  assert (registration 1 20 ∉ [registration 1 10]) as N.
  { apply not_elem_of_cons. split; [discriminate|apply not_elem_of_nil]. }
  split; [exact H|]. split; [exact N|].
  destruct (remove_unknown_callback s all_ok svc 1 20 _ H N) as (Hr & Hs & _).
  split; [exact Hr | exact Hs].
Defined.

(** ** Who talks to whom *)



(** X6.  The filter acts on one kind of message only.  A message that is
    not a NameOwnerChanged signal of the bus, whose arguments are not three
    strings, whose new owner is not empty, or whose name has no record
    leaves the registry as it is and reaches no callback. *)
Theorem filter_ignores (message : DBusMessage) (s : registry) :
  dbus_message_is_signal message DBUS_INTERFACE_DBUS "NameOwnerChanged" = false ∨
  msg_args message = None ∨
  (∃ name old new, msg_args message = Some (name, old, new) ∧
                   (new ≠ ""%string ∨ callbacks_of name s = None)) →
  let r := name_exit_filter message s in
  state r = s ∧ count is_callback (events r) = 0%nat.
Proof.
  intros H. cbv zeta. rewrite name_exit_filter_run. cbv zeta.
  destruct (dbus_message_is_signal _ _ _); simpl; [|done].
  destruct H as [H|[H|(name & old & new & H & Hn)]]; [done|by rewrite H|].
  rewrite H. destruct new; [|done].
  destruct Hn as [Hn|Hn]; [done|].
  apply find_from_None in Hn. by rewrite Hn.
Qed.

Lemma filter_ignores_witness :
  let s := state (name_listener_add all_ok svc 1 10 initial) in
  let acquired := {| msg_signal := Some (DBUS_INTERFACE_DBUS, "NameOwnerChanged"%string);
                     msg_args := Some (svc, ""%string, ":1.7"%string) |} in
  callbacks_of svc s = Some [registration 1 10] ∧
  state (name_exit_filter acquired s) = s ∧
  count is_callback (events (name_exit_filter acquired s)) = 0%nat.
Proof.
  intros s acquired. split; [reflexivity|].
  apply (filter_ignores acquired s). right. right.
  exists svc, ""%string, ":1.7"%string. split; [reflexivity|]. left. discriminate.
Defined.

(** X7.  The two public functions never call a registered callback.  An
    add makes at most one request for a match rule and never asks to remove
    one; a remove makes at most one request to remove a match rule, never
    asks for one and never attaches the filter or touches the flag. *)
Theorem public_calls_stay_in_role (s : registry) (x : extern) (name : string)
    (f : name_cb_t) (u : pointer) :
  let a := name_listener_add x name f u s in
  let r := name_listener_remove x name f u s in
  count is_callback (events a) = 0%nat ∧
  count is_remove_match (events a) = 0%nat ∧
  (count is_add_match (events a) ≤ 1)%nat ∧
  count is_callback (events r) = 0%nat ∧
  count is_add_match (events r) = 0%nat ∧
  count is_add_filter (events r) = 0%nat ∧
  (count is_remove_match (events r) ≤ 1)%nat ∧
  name_listener_initialized (state r) = name_listener_initialized s.
Proof.
  cbv zeta. rewrite name_listener_add_run, name_listener_remove_run.
  destruct s as [ini l]. unfold prologue, count, events, state. simpl.
  destruct ini, (add_filter_ok x), (malloc_name_callback x), (malloc_name_data x),
    (strdup_name x), (add_match_err x), (remove_match_err x),
    (find_from name l 0) as [[p d]|]; simpl;
    try destruct (name_callback_find (nd_callbacks d) f u) as [c|]; simpl;
    try destruct (delete c (nd_callbacks d)); simpl;
    repeat split; lia.
Qed.

(** ** When the public functions fail, and when they talk to the bus *)

(** X8.  An add returns 0 or -1.  It returns -1 in two cases only: the
    filter was not attached yet and [dbus_connection_add_filter] fails, or
    the request for the match rule reports an error; and an add that
    returns -1 leaves [name_listeners] as it was. *)
Theorem add_fails_only_on_bus_errors (s : registry) (x : extern) (name : string)
    (f : name_cb_t) (u : pointer) :
  let r := name_listener_add x name f u s in
  (result r = 0 ∨ result r = -1) ∧
  (result r = -1 ↔
     (name_listener_initialized s = false ∧ add_filter_ok x = false) ∨
     (∃ message, In (BusAddMatch (match_string name) (Some message)) (events r))) ∧
  (result r = -1 → name_listeners (state r) = name_listeners s).
Proof.
  cbv zeta. rewrite name_listener_add_run.
  destruct s as [ini l]. unfold prologue, result, events, state. simpl.
  destruct ini, (add_filter_ok x), (malloc_name_callback x), (malloc_name_data x),
    (strdup_name x), (add_match_err x) as [message|],
    (find_from name l 0) as [[p d]|]; simpl;
    (split_and!; [auto| |done]);
    (split;
     [ intros E; try discriminate E; try (left; done);
       right; exists message; simpl; auto 10
     | intros [[? ?]|[m H]]; try done; try discriminate; absurd_event H ]).
Qed.

(** X9.  A remove returns 0 or -1.  It returns 0 exactly when the pair is
    registered under the name and, in case it is the only registration of
    the name, the bus removes the match rule without error. *)
Theorem remove_succeeds_iff (s : registry) (x : extern) (name : string)
    (f : name_cb_t) (u : pointer) :
  let r := name_listener_remove x name f u s in
  (result r = 0 ∨ result r = -1) ∧
  (result r = 0 ↔
     ∃ cbs, callbacks_of name s = Some cbs ∧ registration f u ∈ cbs ∧
            (length cbs = 1%nat → remove_match_err x = None)).
Proof.
  cbv zeta. rewrite name_listener_remove_run. cbv zeta.
  unfold callbacks_of, callbacks_in, result.
  destruct (find_from name (name_listeners s) 0) as [[p d]|]; simpl.
  2:{ split; [by right|]. split; [done|]. by intros (cbs & ? & _). }
  destruct (name_callback_find (nd_callbacks d) f u) as [c|] eqn:C; simpl.
  2:{ apply name_callback_find_None in C. split; [by right|]. split; [done|].
      intros (cbs & [= <-] & Hin & _). by destruct C. }
  apply name_callback_find_Some in C as (l1 & l2 & E & -> & Hn & ->).
  assert (registration f u ∈ nd_callbacks d) as Hin.
  { rewrite E. apply elem_of_app. right. by left. }
  destruct (l1 ++ l2) as [|cb rest] eqn:L; simpl.
  - apply app_eq_nil in L as [-> ->]. simpl in E.
    destruct (remove_match_err x) as [message|]; simpl.
    + split; [by right|]. split; [done|].
      intros (cbs & [= <-] & _ & Hl). rewrite E in Hl. by specialize (Hl eq_refl).
    + split; [by left|]. split; [|done]. intros _. by exists (nd_callbacks d).
  - split; [by left|]. split; [|done]. intros _. exists (nd_callbacks d).
    split_and!; [done|done|]. rewrite E, length_app. simpl.
    apply (f_equal length) in L. rewrite length_app in L. simpl in L. lia.
Qed.

(** X10.  An add asks the bus for a match rule exactly when it creates the
    record of the name: the name had no record, the three allocations
    succeed, and the filter is or gets attached.  The rule it asks for is
    then the one for the name. *)
Theorem rule_requested_iff_record_created (s : registry) (x : extern) (name : string)
    (f : name_cb_t) (u : pointer) :
  let r := name_listener_add x name f u s in
  (count is_add_match (events r) = 1%nat ↔
     callbacks_of name s = None ∧
     malloc_name_callback x = true ∧ malloc_name_data x = true ∧ strdup_name x = true ∧
     (name_listener_initialized s = true ∨ add_filter_ok x = true)) ∧
  List.filter is_add_match (events r) =
    repeat (BusAddMatch (match_string name) (add_match_err x))
           (count is_add_match (events r)).
Proof.
  cbv zeta. rewrite name_listener_add_run.
  destruct s as [ini l]. unfold callbacks_of, callbacks_in, prologue, count, events. simpl.
  destruct ini, (add_filter_ok x), (malloc_name_callback x), (malloc_name_data x),
    (strdup_name x), (add_match_err x) as [message|],
    (find_from name l 0) as [[p d]|]; simpl;
    (split; [|done]);
    (split;
     [ intros E; try discriminate E; split_and!; auto
     | intros (H1 & H2 & H3 & H4 & [H5|H5]); done ]).
Qed.

(** X11.  A remove asks the bus to remove the match rule exactly when the
    pair is the only registration of the name; the rule it names is then
    the one for the name. *)
Theorem rule_removed_iff_last (s : registry) (x : extern) (name : string)
    (f : name_cb_t) (u : pointer) :
  let r := name_listener_remove x name f u s in
  (count is_remove_match (events r) = 1%nat ↔
     callbacks_of name s = Some [registration f u]) ∧
  List.filter is_remove_match (events r) =
    repeat (BusRemoveMatch (match_string name) (remove_match_err x))
           (count is_remove_match (events r)).
Proof.
  cbv zeta. rewrite name_listener_remove_run. cbv zeta.
  unfold callbacks_of, callbacks_in, count, events.
  destruct (find_from name (name_listeners s) 0) as [[p d]|]; simpl; [|done].
  destruct (name_callback_find (nd_callbacks d) f u) as [c|] eqn:C; simpl.
  2:{ apply name_callback_find_None in C. split; [|done]. split; [done|].
      intros [= E]. rewrite E in C. destruct C. by left. }
  apply name_callback_find_Some in C as (l1 & l2 & E & -> & Hn & ->).
  destruct (l1 ++ l2) as [|cb rest] eqn:L; simpl.
  - apply app_eq_nil in L as [-> ->]. simpl in E. rewrite E.
    by destruct (remove_match_err x).
  - split; [|done]. split; [done|]. intros [= E']. rewrite E' in E.
    apply (f_equal length) in E, L. rewrite length_app in E, L. simpl in E, L. lia.
Qed.

(** ** Invariants and compositions *)

(** X12.  However the registry is used, no two records of [name_listeners]
    carry the same name: [name_data_add] allocates a record only after
    [name_data_find] has failed for the name. *)
Theorem names_stay_distinct (cs : list call) :
  NoDup (nd_name <$> name_listeners (state (run cs initial))).
Proof. apply run_distinct. simpl. apply NoDup_nil_2. Qed.

Lemma filter_forgets message name old s :
  NoDup (nd_name <$> name_listeners s) →
  dbus_message_is_signal message DBUS_INTERFACE_DBUS "NameOwnerChanged" = true →
  msg_args message = Some (name, old, ""%string) →
  callbacks_of name (state (name_exit_filter message s)) = None.
Proof.
  intros Hs Hsig Hargs. rewrite name_exit_filter_run, Hsig, Hargs. simpl.
  unfold callbacks_of, state.
  destruct (find_from name (name_listeners s) 0) as [[p d]|] eqn:F; simpl;
    [|by apply find_from_None].
  destruct (found_split _ _ _ _ F) as (l1 & l2 & E & _ & Hn & H1 & _ & ->).
  rewrite E, fmap_app in Hs. simpl in Hs.
  apply NoDup_app in Hs as (_ & _ & N3). apply NoDup_cons in N3 as [N3 _].
  rewrite callbacks_in_app, H1. apply callbacks_in_None_names. by rewrite <- Hn.
Qed.

(** X13.  A loss of ownership is delivered once.  After the filter has
    handled a NameOwnerChanged signal with an empty new owner for a name,
    the same signal delivered again changes nothing and reaches no callback
    (it is logged as a signal without listeners), and every remove for the
    name returns -1 and changes nothing. *)
Theorem after_loss_nothing_left (cs : list call) (message : DBusMessage)
    (name old : string) :
  dbus_message_is_signal message DBUS_INTERFACE_DBUS "NameOwnerChanged" = true →
  msg_args message = Some (name, old, ""%string) →
  let s1 := state (name_exit_filter message (state (run cs initial))) in
  events (name_exit_filter message s1) =
    [Syslog LOG_ERR ("Got NameOwnerChanged signal for " +:+ name
                     +:+ " which has no listeners")] ∧
  state (name_exit_filter message s1) = s1 ∧
  ∀ x f u, result (name_listener_remove x name f u s1) = -1 ∧
           state (name_listener_remove x name f u s1) = s1.
Proof.
  intros Hsig Hargs s1.
  assert (callbacks_of name s1 = None) as Hc.
  { eapply filter_forgets; [|done..]. apply run_distinct. simpl. apply NoDup_nil_2. }
  apply find_from_None in Hc. split_and!.
  - rewrite name_exit_filter_run, Hsig, Hargs. simpl. by rewrite Hc.
  - rewrite name_exit_filter_run, Hsig, Hargs. simpl. by rewrite Hc.
  - intros x f u. rewrite name_listener_remove_run. cbv zeta. by rewrite Hc.
Qed.

Lemma after_loss_nothing_left_witness :
  let s1 := state (name_exit_filter (name_lost svc ":1.42")
                     (state (run [Add all_ok svc 1 10; Add all_ok svc 2 20] initial))) in
  state (name_exit_filter (name_lost svc ":1.42") s1) = s1 ∧
  result (name_listener_remove all_ok svc 1 10 s1) = -1.
Proof.
  intros s1.
  destruct (after_loss_nothing_left [Add all_ok svc 1 10; Add all_ok svc 2 20]
              (name_lost svc ":1.42") svc ":1.42" eq_refl eq_refl) as (_ & Hs & Hr).
  split; [exact Hs|]. by destruct (Hr all_ok 1 10).
Defined.

Lemma name_callback_find_last cbs f u :
  registration f u ∉ cbs →
  name_callback_find (cbs ++ [registration f u]) f u = Some (length cbs).
Proof.
  induction cbs as [|cb cbs IH]; intros Hn; simpl.
  - by rewrite !Z.eqb_refl.
  - apply not_elem_of_cons in Hn as [Hne Hn]. fold (matches f u cb).
    destruct (matches f u cb) eqn:M.
    + apply matches_registration in M. congruence.
    + by rewrite (IH Hn).
Qed.

Lemma alter_twice_back (l : list name_data) p d name cbs :
  find_from name l 0 = Some (p, d) →
  alter (with_callbacks (nd_callbacks d)) p (alter (with_callbacks cbs) p l) = l.
Proof.
  intros F. destruct (found_split _ _ _ _ F) as (l1 & l2 & -> & -> & _ & _ & Ha & _).
  rewrite Ha. rewrite <- (Nat.add_0_r (length l1)), alter_app_r. simpl.
  by destruct d.
Qed.

(** X14.  [name_data_remove] undoes [name_data_add].  If the allocations
    succeed, the pair is not yet registered under the name and the name does
    not have a record with an empty callback list, then adding the pair and
    removing it again gives back the registry exactly, a record created by
    the add included; neither function logs anything. *)
Theorem name_data_add_remove (s : registry) (x : extern) (name : string)
    (f : name_cb_t) (u : pointer) :
  malloc_name_callback x = true → malloc_name_data x = true → strdup_name x = true →
  registration f u ∉ default [] (callbacks_of name s) →
  callbacks_of name s ≠ Some [] →
  let a := name_data_add x name f u s in
  let r := name_data_remove name f u (state a) in
  result a = match callbacks_of name s with Some _ => 0 | None => 1 end ∧
  callbacks_of name (state a) =
    Some (default [] (callbacks_of name s) ++ [registration f u]) ∧
  state r = s ∧ events a = [] ∧ events r = [].
Proof.
  intros M1 M2 M3 Hn Hz a r. subst a r.
  rewrite name_data_add_run, M1, M2, M3. simpl.
  unfold callbacks_of, callbacks_in in *. destruct s as [ini l]. simpl in *.
  destruct (find_from name l 0) as [[p d]|] eqn:F; simpl in *;
    unfold result, state, events; simpl; rewrite name_data_remove_run; simpl.
  - rewrite (find_from_alter _ _ _ _ _ F). simpl.
    rewrite (name_callback_find_last _ _ _ Hn), delete_middle, app_nil_r.
    destruct (nd_callbacks d) as [|cb cbs] eqn:D; [done|].
    unfold with_listeners. simpl.
    split_and!; try done. f_equal. rewrite <- D. by eapply alter_twice_back.
  - assert (callbacks_in name l = None) as Hc by by apply find_from_None.
    rewrite (find_from_split name l (Name_data name [registration f u]) [] Hc eq_refl).
    simpl. rewrite !Z.eqb_refl. simpl.
    unfold with_listeners. simpl.
    rewrite delete_middle, app_nil_r.
    split_and!; try done; by apply callbacks_in_snoc_same.
Qed.

Lemma name_data_add_remove_witness :
  let s := state (name_listener_add all_ok svc 1 10 initial) in
  (registration 2 20 ∉ default [] (callbacks_of svc s)) ∧
  callbacks_of svc s ≠ Some [] ∧
  state (name_data_remove svc 2 20 (state (name_data_add all_ok svc 2 20 s))) = s ∧
  state (name_data_remove long_svc 2 20 (state (name_data_add all_ok long_svc 2 20 s))) = s.
Proof.
  intros s.
  assert (registration 2 20 ∉ default [] (callbacks_of svc s)) as N.
  { apply not_elem_of_cons. split; [discriminate|apply not_elem_of_nil]. }
  assert (callbacks_of svc s ≠ Some []) as Z by discriminate.
  split; [exact N|]. split; [exact Z|]. split.
  - by destruct (name_data_add_remove s all_ok svc 2 20 eq_refl eq_refl eq_refl N Z)
      as (_ & _ & H & _).
  - assert (registration 2 20 ∉ default [] (callbacks_of long_svc s)) as N'
      by apply not_elem_of_nil.
    assert (callbacks_of long_svc s ≠ Some []) as Z' by discriminate.
    by destruct (name_data_add_remove s all_ok long_svc 2 20 eq_refl eq_refl eq_refl N' Z')
      as (_ & _ & H & _).
Defined.

(** X15.  On a name that is being watched, an add followed by a remove of
    the same pair is invisible.  If the filter is attached, the name has
    registrations and the pair is not among them, then both calls return 0,
    the registry afterwards is exactly the one before, and the only events
    are the two debug lines: the bus is not called. *)
Theorem add_remove_on_watched_name (s : registry) (x1 x2 : extern) (name : string)
    (f : name_cb_t) (u : pointer) (cbs : list name_callback) :
  name_listener_initialized s = true →
  callbacks_of name s = Some cbs → cbs ≠ [] → registration f u ∉ cbs →
  malloc_name_callback x1 = true →
  let a := name_listener_add x1 name f u s in
  let r := name_listener_remove x2 name f u (state a) in
  result a = 0 ∧ result r = 0 ∧ state r = s ∧
  events a = [debug_add name] ∧ events r = [debug_remove name].
Proof.
  intros Hi Hc Hne Hn M1 a r. subst a r.
  rewrite name_listener_add_run, Hi, M1. simpl.
  unfold callbacks_of, callbacks_in in Hc. destruct s as [ini l]. simpl in *. subst ini.
  destruct (find_from name l 0) as [[p d]|] eqn:F; [|done].
  simpl in Hc. injection Hc as Hc.
  unfold result, state, events, prologue. simpl.
  rewrite name_listener_remove_run. simpl.
  rewrite (find_from_alter _ _ _ _ _ F). simpl. rewrite Hc.
  rewrite (name_callback_find_last _ _ _ Hn), delete_middle, app_nil_r.
  destruct cbs as [|cb rest]; [done|].
  unfold with_listeners. simpl.
  split_and!; try done. f_equal. rewrite <- Hc. by eapply alter_twice_back.
Qed.

Lemma add_remove_on_watched_name_witness :
  let s := state (name_listener_add all_ok svc 1 10 initial) in
  name_listener_initialized s = true ∧
  callbacks_of svc s = Some [registration 1 10] ∧
  state (name_listener_remove remove_match_fails svc 2 20
           (state (name_listener_add add_match_fails svc 2 20 s))) = s.
Proof.
  intros s.
  assert (callbacks_of svc s = Some [registration 1 10]) as H by reflexivity.
  assert (registration 2 20 ∉ [registration 1 10]) as N.
  { apply not_elem_of_cons. split; [discriminate|apply not_elem_of_nil]. }
  split; [reflexivity|]. split; [exact H|].
  by destruct (add_remove_on_watched_name s add_match_fails remove_match_fails svc 2 20 _
                 eq_refl H ltac:(discriminate) N eq_refl) as (_ & _ & E & _).
Defined.

(** X16.  An add never drops or reorders what is registered for its name:
    whatever the allocator and the bus answer, the callback list of the name
    afterwards is the list before, followed by nothing or by the new
    registration. *)
Theorem add_keeps_registrations (s : registry) (x : extern) (name : string)
    (f : name_cb_t) (u : pointer) :
  let r := name_listener_add x name f u s in
  ∃ tail, default [] (callbacks_of name (state r)) =
            default [] (callbacks_of name s) ++ tail ∧
          (tail = [] ∨ tail = [registration f u]).
Proof.
  cbv zeta. rewrite name_listener_add_run. cbv zeta.
  unfold callbacks_of, state. unfold callbacks_in at 2.
  destruct (negb (name_listener_initialized s) && negb (add_filter_ok x)); simpl.
  { exists []. rewrite app_nil_r. unfold callbacks_in. auto. }
  destruct (negb (malloc_name_callback x)); simpl.
  { exists []. rewrite app_nil_r. unfold callbacks_in. auto. }
  destruct (find_from name (name_listeners s) 0) as [[p d]|] eqn:F; simpl.
  { exists [registration f u]. rewrite (callbacks_in_alter_same name _ _ d F). auto. }
  assert (callbacks_in name (name_listeners s) = None) as Hc by by apply find_from_None.
  destruct (negb (malloc_name_data x) || negb (strdup_name x)); simpl.
  { exists []. rewrite Hc. auto. }
  destruct (add_match_err x); simpl.
  { exists []. rewrite Hc. auto. }
  exists [registration f u]. rewrite (callbacks_in_snoc_same _ _ _ Hc). auto.
Qed.

(** ** The match rule and its buffer *)

Lemma length_substring (s : string) (n : nat) :
  String.length (String.substring 0 n s) = Nat.min n (String.length s).
Proof.
  revert n. induction s as [|a s IH]; intros [|n]; simpl; try done.
  by rewrite IH.
Qed.

Lemma substring_append (p s : string) (k : nat) :
  String.substring 0 (String.length p + k) (p +:+ s) = p +:+ String.substring 0 k s.
Proof. induction p as [|a p IH]; simpl; [done|]. by rewrite IH. Qed.

Lemma append_cancel (p a b : string) : p +:+ a = p +:+ b → a = b.
Proof. induction p as [|c p IH]; simpl; [done|]. intros [= E]. by apply IH. Qed.

Lemma match_string_parts name :
  match_string name =
  "interface=" +:+ DBUS_INTERFACE_DBUS +:+ ",member=NameOwnerChanged,arg0="
  +:+ String.substring 0 67 name.
Proof.
  unfold match_string, snprintf, match_format.
  change (128 - 1)%nat with
    (String.length "interface=" +
     (String.length DBUS_INTERFACE_DBUS +
      (String.length ",member=NameOwnerChanged,arg0=" + 67)))%nat.
  by rewrite !substring_append.
Qed.

(** X17.  The rule always fits the 128-byte buffer of the two public
    functions: it has 60 bytes more than the name, and never more than
    127. *)
Theorem match_string_fits (name : string) :
  String.length (match_string name) = Nat.min 127 (60 + String.length name).
Proof.
  rewrite match_string_parts, !length_append, length_substring. simpl. lia.
Qed.

(** X18.  Two names get the same match rule exactly when they agree on
    their first 67 bytes; names of at most 67 bytes with the same rule are
    equal. *)
Theorem same_rule_iff_same_first_67_bytes (name1 name2 : string) :
  (match_string name1 = match_string name2 ↔
   String.substring 0 67 name1 = String.substring 0 67 name2) ∧
  ((String.length name1 ≤ 67)%nat → (String.length name2 ≤ 67)%nat →
   match_string name1 = match_string name2 → name1 = name2).
Proof.
  assert (match_string name1 = match_string name2 ↔
          String.substring 0 67 name1 = String.substring 0 67 name2) as Hiff.
  { rewrite !match_string_parts. split; [|by intros ->].
    intros E. by do 3 apply append_cancel in E. }
  split; [done|]. intros L1 L2 E. apply Hiff in E.
  by rewrite !substring_whole in E.
Qed.

Lemma same_rule_iff_same_first_67_bytes_witness :
  (String.length svc ≤ 67)%nat ∧
  match_string long_svc =
    match_string "org.example.Bluetooth.Service.With.A.Rather.Long.WellKnown.BusName.Y" ∧
  (match_string svc = match_string "org.example.Svc" → svc = "org.example.Svc"%string).
Proof.
  assert (String.length svc ≤ 67)%nat as L by (vm_compute; lia).
  destruct (same_rule_iff_same_first_67_bytes long_svc
              "org.example.Bluetooth.Service.With.A.Rather.Long.WellKnown.BusName.Y")
    as [Hiff _].
  destruct (same_rule_iff_same_first_67_bytes svc "org.example.Svc") as [_ Hinj].
  split; [exact L|]. split; [by apply Hiff|]. exact (Hinj L L).
Defined.

(** * Delivery when callbacks call the registry *)

Lemma call_all_reentrant_quiet {U} (b : behaviour U) name p d : ∀ fuel i u s,
  name_listeners s !! p = Some d →
  (∀ cb, cb ∈ nd_callbacks d → quiet b name cb) →
  (length (nd_callbacks d) - i < fuel)%nat →
  ∃ u', call_all_reentrant b fuel name p i u s =
        (Finished u', s,
         map (λ cb, Callback (cb_func cb) name (cb_user_data cb)) (drop i (nd_callbacks d))).
Proof.
  induction fuel as [|fuel IH]; intros i u s Hp Hq Hf; [lia|].
  simpl. unfold bind at 1. unfold get_listeners. rewrite Hp. simpl.
  destruct (nd_callbacks d !! i) as [cb|] eqn:L.
  - destruct (Hq cb (list_elem_of_lookup_2 _ _ _ L) u) as [u' E].
    apply lookup_lt_Some in L as Hi.
    destruct (IH (S i) u' s Hp Hq) as [u'' IH']; [lia|].
    exists u''. unfold bind, emit. rewrite E. simpl.
    rewrite IH'. by rewrite (drop_S _ _ _ L).
  - exists u. apply lookup_ge_None in L. by rewrite drop_ge.
Qed.

(** For callbacks that make no call, and with fuel for one step more than
    the record has callbacks, the filter with callbacks is
    [name_exit_filter]. *)
Lemma name_exit_filter_quiet {U} (b : behaviour U) fuel message (u : U) s :
  (∀ name old new cbs,
     msg_args message = Some (name, old, new) → callbacks_of name s = Some cbs →
     (∀ cb, cb ∈ cbs → quiet b name cb) ∧ (length cbs < fuel)%nat) →
  ∃ u', name_exit_filter_reentrant b fuel message u s =
        (Finished (result (name_exit_filter message s), u'),
         state (name_exit_filter message s), events (name_exit_filter message s)).
Proof.
  intros H. rewrite name_exit_filter_run. unfold name_exit_filter_reentrant.
  cbv zeta. unfold result, state, events.
  destruct (dbus_message_is_signal _ _ _); simpl; [|by exists u].
  destruct (msg_args message) as [[[name old] new]|] eqn:A; [|by exists u].
  destruct new; [|by exists u].
  unfold name_data_find, bind at 1 2, get_listeners, ret at 1. simpl.
  destruct (find_from name (name_listeners s) 0) as [[p d]|] eqn:F; [|by exists u].
  destruct (H name old ""%string (nd_callbacks d) eq_refl) as [Hq Hf].
  { unfold callbacks_of, callbacks_in. by rewrite F. }
  destruct (found_split _ _ _ _ F) as (l1 & l2 & E & -> & _).
  destruct (call_all_reentrant_quiet b name (length l1) d fuel 0 u s) as [u' C];
    [rewrite E; by apply list_lookup_middle|done|lia|].
  exists u'. unfold bind. rewrite C. simpl. by rewrite !app_nil_r.
Qed.

(** C6, as the code has it.  Take a registry in which no two records carry
    the same name (all that the code builds are such), and callbacks that
    make no call to the registry while they run.  When a NameOwnerChanged
    signal with three string arguments and an empty new owner arrives for a
    name that has a record, the filter calls the callbacks of the record,
    each once with the name and its own user data, in the order of the list
    (the order of registration), makes no other call and returns, and
    afterwards the name has no record. *)
Theorem loss_signal_with_quiet_callbacks {U} (b : behaviour U) (fuel : nat)
    (s : registry) (message : DBusMessage) (name old : string)
    (cbs : list name_callback) (u : U) :
  NoDup (nd_name <$> name_listeners s) →
  dbus_message_is_signal message DBUS_INTERFACE_DBUS "NameOwnerChanged" = true →
  msg_args message = Some (name, old, ""%string) →
  callbacks_of name s = Some cbs →
  (∀ cb, cb ∈ cbs → quiet b name cb) →
  (length cbs < fuel)%nat →
  let r := name_exit_filter_reentrant b fuel message u s in
  (∃ u', result r = Finished (DBUS_HANDLER_RESULT_NOT_YET_HANDLED, u')) ∧
  events r = map (λ cb, Callback (cb_func cb) name (cb_user_data cb)) cbs ∧
  callbacks_of name (state r) = None.
Proof.
  intros Hs Hsig Hargs Hc Hq Hf r.
  destruct (name_exit_filter_quiet b fuel message u s) as [u' E].
  { intros n o w cbs' A C. rewrite Hargs in A. injection A as <- <- <-.
    rewrite Hc in C. by injection C as <-. }
  assert (callbacks_of name (state (name_exit_filter message s)) = None) as Hgone
    by by eapply filter_forgets.
  subst r. rewrite E. revert Hgone. rewrite name_exit_filter_run, Hsig, Hargs. simpl.
  unfold callbacks_of, callbacks_in in Hc.
  destruct (find_from name (name_listeners s) 0) as [[p d]|]; [|done].
  simpl in Hc. injection Hc as ->. unfold result, state, events. simpl.
  intros Hgone. split_and!; [by exists u'|done|done].
Qed.

Lemma loss_signal_with_quiet_callbacks_witness :
  let s := state (run [Add all_ok svc 1 10; Add all_ok svc 2 20] initial) in
  let r := name_exit_filter_reentrant returns_at_once 3 (name_lost svc ":1.42") tt s in
  callbacks_of svc s = Some [registration 1 10; registration 2 20] ∧
  events r = [Callback 1 svc 10; Callback 2 svc 20] ∧
  callbacks_of svc (state r) = None.
Proof.
  intros s r.
  assert (callbacks_of svc s = Some [registration 1 10; registration 2 20]) as H
    by reflexivity.
  assert (NoDup (nd_name <$> name_listeners s)) as N by apply NoDup_singleton.
  assert (∀ cb, cb ∈ [registration 1 10; registration 2 20] →
                quiet returns_at_once svc cb) as Q
    by (intros cb _ u; by exists u).
  assert (length [registration 1%Z 10%Z; registration 2%Z 20%Z] < 3)%nat as F
    by (simpl; lia).
  split; [exact H|].
  destruct (loss_signal_with_quiet_callbacks returns_at_once 3 s (name_lost svc ":1.42")
              svc ":1.42" _ tt N eq_refl eq_refl H Q F) as (_ & He & Hc).
  split; [exact He | exact Hc].
Defined.

(** C6 as stated fails when callbacks call the registry while the filter
    runs.  Two callbacks are registered for a name and the name loses its
    owner.  If the first callback takes the registration of the second off
    the registry, the second is never called.  If the first registers a
    third callback, the third is called in the same run and its
    registration is dropped with the others.  If every callback registers
    itself again, the filter is still calling callbacks after a hundred
    steps.  If every callback unregisters itself, the filter reads the next
    pointer of a node that is no longer in the list, and the record is not
    dropped. *)
Lemma loss_signal_with_calling_callbacks :
  let s := state (run [Add all_ok svc 1 10; Add all_ok svc 2 20] initial) in
  let deliver b fuel := name_exit_filter_reentrant b fuel (name_lost svc ":1.42") tt s in
  callbacks_of svc s = Some [registration 1 10; registration 2 20] ∧
  (result (deliver unsubscribes_other 10%nat) = Finished (DBUS_HANDLER_RESULT_NOT_YET_HANDLED, tt) ∧
   List.filter is_callback (events (deliver unsubscribes_other 10%nat)) = [Callback 1 svc 10]) ∧
  (result (deliver subscribes_other 10%nat) = Finished (DBUS_HANDLER_RESULT_NOT_YET_HANDLED, tt) ∧
   List.filter is_callback (events (deliver subscribes_other 10%nat)) =
     [Callback 1 svc 10; Callback 2 svc 20; Callback 3 svc 30] ∧
   callbacks_of svc (state (deliver subscribes_other 10%nat)) = None) ∧
  (result (deliver subscribes_again 100%nat) = Still_running ∧
   count is_callback (events (deliver subscribes_again 100%nat)) = 100%nat) ∧
  (result (deliver unsubscribes_itself 10%nat) = Reads_unlinked_node ∧
   callbacks_of svc (state (deliver unsubscribes_itself 10%nat)) = Some [registration 2 20]).
Proof. by vm_compute. Qed.

(** With callbacks that register themselves again the loop has no end: the
    filter is still running whatever the fuel. *)
Lemma subscribes_again_never_returns name p : ∀ fuel i s d,
  find_from name (name_listeners s) 0 = Some (p, d) →
  name_listener_initialized s = true →
  (i < length (nd_callbacks d))%nat →
  result (call_all_reentrant subscribes_again fuel name p i tt s) = Still_running.
Proof.
  induction fuel as [|fuel IH]; intros i s d F Hi Hl; [done|].
  destruct (found_split _ _ _ _ F) as (l1 & l2 & E & Hp & _).
  assert (name_listeners s !! p = Some d) as Lp
    by (rewrite E, Hp; by apply list_lookup_middle).
  destruct (lookup_lt_is_Some_2 _ _ Hl) as [cb Lc].
  simpl. unfold bind at 1. unfold get_listeners. rewrite Lp. simpl. rewrite Lc.
  unfold subscribes_again at 1. simpl.
  unfold bind, emit, ret. rewrite name_listener_add_run. cbv zeta. rewrite Hi, F. simpl.
  specialize (IH (S i)
    (Registry true (alter (with_callbacks (nd_callbacks d ++
        [registration (cb_func cb) (cb_user_data cb)])) p (name_listeners s)))
    (with_callbacks (nd_callbacks d ++ [registration (cb_func cb) (cb_user_data cb)]) d)).
  fold subscribes_again. unfold result in *.
  destruct (call_all_reentrant subscribes_again fuel name p (S i) tt _) as [[e s'] ev].
  simpl in *. apply IH; [by apply find_from_alter|done|].
  rewrite length_app. simpl. lia.
Qed.

Lemma subscribes_again_filter_never_returns fuel s name old d p :
  find_from name (name_listeners s) 0 = Some (p, d) →
  name_listener_initialized s = true →
  nd_callbacks d ≠ [] →
  result (name_exit_filter_reentrant subscribes_again fuel (name_lost name old) tt s)
  = Still_running.
Proof.
  intros F Hi Hn. unfold name_exit_filter_reentrant. simpl.
  unfold name_data_find, bind at 1 2, get_listeners, ret at 1. simpl. rewrite F.
  assert (0 < length (nd_callbacks d))%nat as Hl
    by (destruct (nd_callbacks d); [done|simpl; lia]).
  pose proof (subscribes_again_never_returns name p fuel 0%nat s d F Hi Hl) as R.
  unfold bind, result in *.
  destruct (call_all_reentrant subscribes_again fuel name p 0 tt s) as [[e s'] ev].
  simpl in R. by subst e.
Qed.
